(** * Smart Expense Assistant: the form controller and its two services

    A shallow embedding of [src/types.ts], [constants.ts], the Gemini
    extraction service, the n8n submission service and the handlers of
    [src/App.tsx], followed by the properties of the specification that
    they decide.

    Conventions of the embedding.
    - A JavaScript [string] is a Rocq [string] (a byte sequence). The
      string operations that the code uses ([trim], [split], [toUpperCase],
      [startsWith], [includes], [join] and the one [replace]) are written
      out on bytes; case mapping and white space are the ASCII ones.
    - A JavaScript [number] is [NaN], an infinity, or a finite value given
      by the rational it denotes (every double is a rational); only
      comparisons and truthiness of numbers occur in the code.
    - [JSON.parse], [String] on a number, [parseFloat] and the clock are
      built-ins of the runtime: they are the operations of the class
      [Runtime], over which the development is parametric.
    - A value that may be [null] or [undefined] is an [option].
    - Objects held in React state carry an identity ([oid]): React compares
      the old and the new state with [Object.is], so a handler that stores a
      freshly allocated object changes the state even when the contents are
      the same.
    - A handler is a program over the [World]: the nine state cells, the
      timers, file reads and requests it has started, and the submission
      states it has entered. What the environment decides (how a remote
      call settles, what a file read returns, the time) is an argument of
      the handler. A handler reads the state cells as they are when it is
      called; [console] output and the DOM are not part of the world. *)

From Stdlib Require Import QArith Ascii String.
From stdpp Require Import gmap strings list pretty.

Set Warnings "-register-all,-clear-no-such-hyp".
Local Open Scope string_scope.
Local Open Scope list_scope.

(** ** JavaScript values *)

Module Js.

Inductive number :=
| NaN
| Infinity (negative : bool)
| Finite (q : Q).

(** [a < b] of ECMAScript on numbers. *)
Definition lt (a b : number) : bool :=
  match a, b with
  | NaN, _ | _, NaN => false
  | Infinity true, Infinity true => false
  | Infinity true, _ => true
  | _, Infinity true => false
  | Infinity false, _ => false
  | Finite _, Infinity false => true
  | Finite x, Finite y => negb (Qle_bool y x)
  end.

(** [a > b]. *)
Definition gt (a b : number) : bool := lt b a.

Definition of_Z (z : Z) : number := Finite (inject_Z z).

(** [ToBoolean] on a number: [0] and [NaN] are falsy. *)
Definition number_truthy (n : number) : bool :=
  match n with
  | NaN => false
  | Infinity _ => true
  | Finite q => negb (Qeq_bool q 0)
  end.

(** [ToBoolean] on a string: only the empty string is falsy. *)
Definition string_truthy (s : string) : bool :=
  match s with
  | EmptyString => false
  | String _ _ => true
  end.

(** A value as [JSON.parse] builds it. An object is the finite map of
    its own properties. *)
Inductive value :=
| Null
| Bool (b : bool)
| Num (n : number)
| Str (s : string)
| Arr (items : list value)
| Obj (props : gmap string value).

(** [ToBoolean]; [None] is [undefined]. *)
Definition truthy (v : option value) : bool :=
  match v with
  | None | Some Null => false
  | Some (Bool b) => b
  | Some (Num n) => number_truthy n
  | Some (Str s) => string_truthy s
  | Some (Arr _) | Some (Obj _) => true
  end.

(** Thrown values. Everything thrown in this program is an [Error]
    (or a subclass raised by the runtime), of which only [message] is
    ever read. *)
Record Error := mkError { message : string }.

Inductive Result (A : Type) :=
| Ok (a : A)
| Throw (e : Error).
Arguments Ok {A} a.
Arguments Throw {A} e.

(** The settlement of a promise that the environment resolves. *)
Inductive Settled (A : Type) :=
| Fulfilled (a : A)
| Rejected (e : Error).
Arguments Fulfilled {A} a.
Arguments Rejected {A} e.

(** [v.k] for a property name [k] that no built-in prototype defines
    (true of the seven names the program reads): [undefined] on every
    value but an object owning [k], a [TypeError] on [null]. *)
Definition get (v : value) (k : string) : Result (option value) :=
  match v with
  | Null => Throw (mkError "Cannot read properties of null")
  | Obj props => Ok (props !! k)
  | Bool _ | Num _ | Str _ | Arr _ => Ok None
  end.

(** [typeof v === 'string'] and [typeof v === 'number'], returning the
    payload. *)
Definition as_string (v : option value) : option string :=
  match v with Some (Str s) => Some s | _ => None end.

Definition as_number (v : option value) : option number :=
  match v with Some (Num n) => Some n | _ => None end.

(** [list.includes(v)] for an array of strings: strict equality with
    one of the items. *)
Definition includes_value (l : list string) (v : option value) : bool :=
  match v with
  | Some (Str s) => bool_decide (s ∈ l)
  | _ => false
  end.

End Js.

#[global] Instance Result_ret : MRet Js.Result := @Js.Ok.
#[global] Instance Result_bind : MBind Js.Result := λ A B f m,
  match m with
  | Js.Ok a => f a
  | Js.Throw e => Js.Throw e
  end.

(** ** String operations of the runtime *)

Module Str.

Definition is_space (c : ascii) : bool :=
  let n := nat_of_ascii c in
  Nat.eqb n 32 || (Nat.leb 9 n && Nat.leb n 13).

Fixpoint trimStart (s : string) : string :=
  match s with
  | String c s' => if is_space c then trimStart s' else s
  | EmptyString => EmptyString
  end.

Definition trimEnd (s : string) : string :=
  String.rev (trimStart (String.rev s)).

Definition trim (s : string) : string := trimEnd (trimStart s).

Definition startsWith (s p : string) : bool := String.prefix p s.

Definition endsWith (s p : string) : bool :=
  String.prefix (String.rev p) (String.rev s).

Fixpoint drop (n : nat) (s : string) : string :=
  match n, s with
  | S n', String _ s' => drop n' s'
  | _, _ => s
  end.

Definition dropEnd (n : nat) (s : string) : string :=
  String.rev (drop n (String.rev s)).

(** [hay.includes(needle)]. *)
Fixpoint includes (hay needle : string) : bool :=
  String.prefix needle hay ||
  match hay with
  | String _ hay' => includes hay' needle
  | EmptyString => false
  end.

(** [s.split(sep)] for a separator of one character. The result is
    never empty: splitting the empty string gives one empty piece. *)
Fixpoint split (sep : ascii) (s : string) : list string :=
  match s with
  | EmptyString => [EmptyString]
  | String c s' =>
      if Ascii.eqb c sep then EmptyString :: split sep s'
      else match split sep s' with
           | piece :: pieces => String c piece :: pieces
           | [] => [String c EmptyString]
           end
  end.

Definition upper (c : ascii) : ascii :=
  let n := nat_of_ascii c in
  if Nat.leb 97 n && Nat.leb n 122 then ascii_of_nat (n - 32) else c.

Fixpoint toUpperCase (s : string) : string :=
  match s with
  | EmptyString => EmptyString
  | String c s' => String (upper c) (toUpperCase s')
  end.

(** [parts.join(sep)]. *)
Definition join (sep : string) (parts : list string) : string :=
  String.concat sep parts.

Definition is_digit (c : ascii) : bool :=
  let n := nat_of_ascii c in Nat.leb 48 n && Nat.leb n 57.

Definition is_lower (c : ascii) : bool :=
  let n := nat_of_ascii c in Nat.leb 97 n && Nat.leb n 122.

Fixpoint all (p : ascii → bool) (s : string) : bool :=
  match s with
  | EmptyString => true
  | String c s' => p c && all p s'
  end.

Fixpoint mem (c : ascii) (s : string) : bool :=
  match s with
  | EmptyString => false
  | String d s' => Ascii.eqb d c || mem c s'
  end.

End Str.


(** ** [types.ts] *)

(** The string enum [ExpenseCategory]: at run time each member is its
    string. *)
Module ExpenseCategory.
Definition FOOD_EXPENSE : string := "Food Expense".
Definition TRAVEL : string := "Travel".
Definition ACCOMMODATION : string := "Accommodation".
Definition OTHER_OFFICE_EXPENSES : string := "Other office expenses".
End ExpenseCategory.

(** [number | ''], the type of [ExpenseData.amount]. *)
Inductive Amount :=
| AmountEmpty
| AmountNumber (n : Js.number).

Record ExpenseData := mkExpenseData {
  expenseCategory : string;
  project : string;
  expenseTitle : string;
  expenseDate : string;
  currency : string;
  amount : Amount;
  comment : string;
  employeeName : string;
  employeeId : string;
}.

Inductive SubmissionStatus := IDLE | SUBMITTING | SUCCESS | ERROR.

(** [Partial<ExpenseData>]: a key is present exactly when its field is
    [Some]. *)
Record PartialExpenseData := mkPartial {
  p_expenseCategory : option string;
  p_project : option string;
  p_expenseTitle : option string;
  p_expenseDate : option string;
  p_currency : option string;
  p_amount : option Amount;
  p_comment : option string;
  p_employeeName : option string;
  p_employeeId : option string;
}.

(** The object literal [{}]. *)
Definition empty_partial : PartialExpenseData :=
  mkPartial None None None None None None None None None.

Definition key_if {A} (k : string) (field : option A) : list string :=
  match field with
  | Some _ => [k]
  | None => []
  end.

(** [Object.keys(p)]. Only the number of keys and the set of keys are
    ever observed, so they are listed in the order of the interface. *)
Definition Object_keys (p : PartialExpenseData) : list string :=
  key_if "expenseCategory" (p_expenseCategory p) ++
  key_if "project" (p_project p) ++
  key_if "expenseTitle" (p_expenseTitle p) ++
  key_if "expenseDate" (p_expenseDate p) ++
  key_if "currency" (p_currency p) ++
  key_if "amount" (p_amount p) ++
  key_if "comment" (p_comment p) ++
  key_if "employeeName" (p_employeeName p) ++
  key_if "employeeId" (p_employeeId p).

(** The rest pattern [{ employeeName, employeeId, ...rest } = p]. *)
Definition rest_without_employee (p : PartialExpenseData) : PartialExpenseData :=
  mkPartial (p_expenseCategory p) (p_project p) (p_expenseTitle p)
            (p_expenseDate p) (p_currency p) (p_amount p) (p_comment p)
            None None.

(** The spread [{ ...prev, ...p }]: a key of [p] wins over [prev]'s. *)
Definition spread (prev : ExpenseData) (p : PartialExpenseData) : ExpenseData :=
  {| expenseCategory := default (expenseCategory prev) (p_expenseCategory p);
     project := default (project prev) (p_project p);
     expenseTitle := default (expenseTitle prev) (p_expenseTitle p);
     expenseDate := default (expenseDate prev) (p_expenseDate p);
     currency := default (currency prev) (p_currency p);
     amount := default (amount prev) (p_amount p);
     comment := default (comment prev) (p_comment p);
     employeeName := default (employeeName prev) (p_employeeName p);
     employeeId := default (employeeId prev) (p_employeeId p) |}.

(** Assignments [sanitizedData.k = v] of the extraction service. An
    [undefined] right-hand side is kept as an absent key. *)
Definition set_expenseCategory (v : option string) (p : PartialExpenseData) :=
  mkPartial v (p_project p) (p_expenseTitle p) (p_expenseDate p)
            (p_currency p) (p_amount p) (p_comment p)
            (p_employeeName p) (p_employeeId p).
Definition set_project (v : option string) (p : PartialExpenseData) :=
  mkPartial (p_expenseCategory p) v (p_expenseTitle p) (p_expenseDate p)
            (p_currency p) (p_amount p) (p_comment p)
            (p_employeeName p) (p_employeeId p).
Definition set_expenseTitle (v : option string) (p : PartialExpenseData) :=
  mkPartial (p_expenseCategory p) (p_project p) v (p_expenseDate p)
            (p_currency p) (p_amount p) (p_comment p)
            (p_employeeName p) (p_employeeId p).
Definition set_expenseDate (v : option string) (p : PartialExpenseData) :=
  mkPartial (p_expenseCategory p) (p_project p) (p_expenseTitle p) v
            (p_currency p) (p_amount p) (p_comment p)
            (p_employeeName p) (p_employeeId p).
Definition set_currency (v : option string) (p : PartialExpenseData) :=
  mkPartial (p_expenseCategory p) (p_project p) (p_expenseTitle p)
            (p_expenseDate p) v (p_amount p) (p_comment p)
            (p_employeeName p) (p_employeeId p).
Definition set_amount (v : option Amount) (p : PartialExpenseData) :=
  mkPartial (p_expenseCategory p) (p_project p) (p_expenseTitle p)
            (p_expenseDate p) (p_currency p) v (p_comment p)
            (p_employeeName p) (p_employeeId p).
Definition set_comment (v : option string) (p : PartialExpenseData) :=
  mkPartial (p_expenseCategory p) (p_project p) (p_expenseTitle p)
            (p_expenseDate p) (p_currency p) (p_amount p) v
            (p_employeeName p) (p_employeeId p).

(** ** [constants.ts] *)

Definition N8N_WEBHOOK_URL : string :=
  "https://snehalpapnoi9.app.n8n.cloud/webhook/41a87729-88be-4791-86ef-708e5d1ee553".

Definition EXPENSE_CATEGORIES : list string :=
  [ ExpenseCategory.FOOD_EXPENSE;
    ExpenseCategory.TRAVEL;
    ExpenseCategory.ACCOMMODATION;
    ExpenseCategory.OTHER_OFFICE_EXPENSES ].

Definition CURRENCIES : list string := ["INR"; "USD"; "EUR"; "GBP"].

(** ** The built-ins the program calls *)

Class Runtime := {
  (** [JSON.parse(text)]; [None] when it throws a [SyntaxError]. *)
  JSON_parse : string → option Js.value;
  (** [String(n)] for a number [n]. *)
  Number_toString : Js.number → string;
  (** [parseFloat(text)]. *)
  parseFloat : string → Js.number;
  (** [new Date().toISOString()] at the moment the module [App.tsx] was
      loaded. *)
  loaded_at : string;
}.

Fixpoint lookup_text (table : list (string * Js.value)) (text : string)
  : option Js.value :=
  match table with
  | [] => None
  | (t, v) :: table' => if String.eqb t text then Some v else lookup_text table' text
  end.

(** An instance for running the program on concrete responses:
    [JSON.parse] is known on the listed texts, each with the value that
    ECMAScript gives it, and refuses every other text. [String(n)] is the
    decimal numeral of an integer [n] (the examples use no other number)
    and [parseFloat] is never reached by an example. The page is loaded
    on 10 July 2024. *)
Definition table_runtime (table : list (string * Js.value)) : Runtime :=
  {| JSON_parse := lookup_text table;
     Number_toString := λ n,
       match n with
       | Js.Finite q => pretty (Qnum q)
       | Js.Infinity false => "Infinity"
       | Js.Infinity true => "-Infinity"
       | Js.NaN => "NaN"
       end;
     parseFloat := λ _, Js.NaN;
     loaded_at := "2024-07-10T09:30:00.000Z" |}.

(** ** [services/geminiService.ts] *)

(** What the program reads of a [GenerateContentResponse]: its [text],
    which the SDK leaves [undefined] when the reply has no text part. *)
Record GenerateContentResponse := mkResponse { text : option string }.

(** [try { body } catch (error) { handler(error) }] on results. *)
Definition try_catch {A} (body : Js.Result A) (handler : Js.Error → Js.Result A)
  : Js.Result A :=
  match body with
  | Js.Ok a => Js.Ok a
  | Js.Throw e => handler e
  end.

(** [await p] inside a [try]. *)
Definition await {A} (p : Js.Settled A) : Js.Result A :=
  match p with
  | Js.Fulfilled a => Js.Ok a
  | Js.Rejected e => Js.Throw e
  end.

(** [text.replace(/^```json\s*|```$/g, '')]: the first alternative can
    only match at the start, where it takes the opening fence and the
    white space after it; the second only at the end of what is left. *)
Definition strip_fence (text : string) : string :=
  let rest :=
    if Str.startsWith text "```json" then Str.trimStart (Str.drop 7 text)
    else text in
  if Str.endsWith rest "```" then Str.dropEnd 3 rest else rest.

(** [date.split('T')[0]], the normalisation applied to [expenseDate]. *)
Definition date_part (date : string) : option string :=
  Str.split "T" date !! 0%nat.

Section GeminiService.
Context `{!Runtime}.

(** The body of the [try] in [parseJsonResponse] from the parsed value on:
    the "Sanitize data" block. *)
Definition sanitize (parsed : Js.value) : Js.Result PartialExpenseData :=
  let sanitizedData := empty_partial in
  category ← Js.get parsed "expenseCategory";
  let sanitizedData :=
    if Js.truthy category && Js.includes_value EXPENSE_CATEGORIES category
    then set_expenseCategory (Js.as_string category) sanitizedData
    else sanitizedData in
  v ← Js.get parsed "project";
  let sanitizedData :=
    match Js.as_string v with
    | Some s => set_project (Some s) sanitizedData
    | None => sanitizedData
    end in
  v ← Js.get parsed "expenseTitle";
  let sanitizedData :=
    match Js.as_string v with
    | Some s => set_expenseTitle (Some s) sanitizedData
    | None => sanitizedData
    end in
  v ← Js.get parsed "expenseDate";
  let sanitizedData :=
    match Js.as_string v with
    | Some s => set_expenseDate (date_part s) sanitizedData
    | None => sanitizedData
    end in
  v ← Js.get parsed "currency";
  let sanitizedData :=
    match Js.as_string v with
    | Some s => set_currency (Some (Str.toUpperCase s)) sanitizedData
    | None => sanitizedData
    end in
  v ← Js.get parsed "amount";
  let sanitizedData :=
    match Js.as_number v with
    | Some n => set_amount (Some (AmountNumber n)) sanitizedData
    | None => sanitizedData
    end in
  v ← Js.get parsed "comment";
  let sanitizedData :=
    match Js.as_string v with
    | Some s => set_comment (Some s) sanitizedData
    | None => sanitizedData
    end in
  mret sanitizedData.

Definition parseJsonResponse (response : GenerateContentResponse)
  : Js.Result PartialExpenseData :=
  try_catch
    (text ← match text response with
            | Some t => Js.Ok (Str.trim t)
            | None => Js.Throw (Js.mkError "Cannot read properties of undefined")
            end;
     let jsonString := strip_fence text in
     parsed ← match JSON_parse jsonString with
              | Some v => Js.Ok v
              | None => Js.Throw (Js.mkError "Unexpected token in JSON")
              end;
     sanitize parsed)
    (λ _, Js.Throw (Js.mkError
       "Could not understand the AI's response. Please try again or enter manually.")).

(** [parseTextFromNaturalLanguage(text)], given how the remote call
    [ai.models.generateContent] settles. The request itself is not part
    of the model. *)
Definition parseTextFromNaturalLanguage (description : string)
    (reply : Js.Settled GenerateContentResponse) : Js.Result PartialExpenseData :=
  try_catch
    (response ← await reply;
     parseJsonResponse response)
    (λ _, Js.Throw (Js.mkError
       "Failed to process your request. The AI service may be unavailable.")).

(** [parseReceiptFromImage(base64Image, mimeType)], likewise. *)
Definition parseReceiptFromImage (base64Image mimeType : string)
    (reply : Js.Settled GenerateContentResponse) : Js.Result PartialExpenseData :=
  try_catch
    (response ← await reply;
     parseJsonResponse response)
    (λ _, Js.Throw (Js.mkError
       "Failed to read the receipt. The AI service may be unavailable.")).

End GeminiService.

(** ** React state, and the world the handlers act on *)

(** An object with its identity. [Object.is a b] on objects is
    [oid a = oid b]. *)
Record Obj (A : Type) := mkObj { oid : nat; oval : A }.
Arguments mkObj {A} oid oval.
Arguments oid {A} o.
Arguments oval {A} o.

(** What the program reads of a DOM [File]. *)
Record File := mkFile {
  file_name : string;
  file_type : string;
  file_size : N;
}.

(** The nine [useState] cells of [App]. *)
Record AppState := mkAppState {
  expenseData : Obj ExpenseData;
  receiptFile : option File;
  receiptPreview : option string;
  naturalLanguageQuery : string;
  isAiLoading : bool;
  aiError : option string;
  submissionStatus : SubmissionStatus;
  submissionError : option string;
  updatedFields : Obj (gset string);
}.

(** A value appended to a [FormData]. *)
Inductive FormValue :=
| FormString (s : string)
| FormBlob (file : File) (filename : string).

(** A [fetch(url, { method, body, mode })] call. *)
Record Request := mkRequest {
  req_url : string;
  req_method : string;
  req_body : list (string * FormValue);
  req_mode : string;
}.

(** The callbacks the program hands to [setTimeout]. *)
Inductive TimerCallback :=
| ClearUpdatedFields.

Record World := mkWorld {
  state : AppState;
  (** the next fresh object identity *)
  next_oid : nat;
  (** callbacks given to [setTimeout], with their delay in ms, latest first *)
  timers : list (TimerCallback * Z);
  (** files given to [FileReader.readAsDataURL] whose [onloadend] is due *)
  reads : list File;
  (** the [fetch] calls dispatched, latest first *)
  requests : list Request;
  (** the values given to [setSubmissionStatus], latest first: the
      submission states the form has entered *)
  entered : list SubmissionStatus;
}.

(** Handlers are programs over the world that may throw. *)
Definition M (A : Type) : Type := World → Js.Result A * World.

#[global] Instance M_ret : MRet M := λ A a w, (Js.Ok a, w).
#[global] Instance M_bind : MBind M := λ A B f m w,
  match m w with
  | (Js.Ok a, w') => f a w'
  | (Js.Throw e, w') => (Js.Throw e, w')
  end.

Definition throw {A} (e : Js.Error) : M A := λ w, (Js.Throw e, w).

Definition get_state : M AppState := λ w, (Js.Ok (state w), w).

Definition modify (f : World → World) : M unit := λ w, (Js.Ok tt, f w).

(** A pure computation that may throw, run inside a handler. *)
Definition lift {A} (r : Js.Result A) : M A := λ w, (r, w).

Definition catch {A} (body : M A) (handler : Js.Error → M A) : M A := λ w,
  match body w with
  | (Js.Ok a, w') => (Js.Ok a, w')
  | (Js.Throw e, w') => handler e w'
  end.

(** [try { body } finally { final }] where [final] does not throw. *)
Definition finally {A} (body : M A) (final : M unit) : M A := λ w,
  match body w with
  | (r, w') => (r, snd (final w'))
  end.

(** A call of an [async] function that nobody awaits: its effects take
    place, its rejection is not observed. *)
Definition unawaited (body : M unit) : M unit := λ w, (Js.Ok tt, snd (body w)).

(** The world a handler leaves. *)
Definition exec {A} (m : M A) (w : World) : World := snd (m w).

Definition with_state (f : AppState → AppState) (w : World) : World :=
  mkWorld (f (state w)) (next_oid w) (timers w) (reads w) (requests w)
          (entered w).

(** The state setters that [useState] returns. *)
Definition set_expenseData (o : Obj ExpenseData) : M unit :=
  modify (with_state (λ s,
    mkAppState o (receiptFile s) (receiptPreview s) (naturalLanguageQuery s)
      (isAiLoading s) (aiError s) (submissionStatus s) (submissionError s)
      (updatedFields s))).
Definition setReceiptFile (v : option File) : M unit :=
  modify (with_state (λ s,
    mkAppState (expenseData s) v (receiptPreview s) (naturalLanguageQuery s)
      (isAiLoading s) (aiError s) (submissionStatus s) (submissionError s)
      (updatedFields s))).
Definition setReceiptPreview (v : option string) : M unit :=
  modify (with_state (λ s,
    mkAppState (expenseData s) (receiptFile s) v (naturalLanguageQuery s)
      (isAiLoading s) (aiError s) (submissionStatus s) (submissionError s)
      (updatedFields s))).
Definition setNaturalLanguageQuery (v : string) : M unit :=
  modify (with_state (λ s,
    mkAppState (expenseData s) (receiptFile s) (receiptPreview s) v
      (isAiLoading s) (aiError s) (submissionStatus s) (submissionError s)
      (updatedFields s))).
Definition setIsAiLoading (v : bool) : M unit :=
  modify (with_state (λ s,
    mkAppState (expenseData s) (receiptFile s) (receiptPreview s)
      (naturalLanguageQuery s) v (aiError s) (submissionStatus s)
      (submissionError s) (updatedFields s))).
Definition setAiError (v : option string) : M unit :=
  modify (with_state (λ s,
    mkAppState (expenseData s) (receiptFile s) (receiptPreview s)
      (naturalLanguageQuery s) (isAiLoading s) v (submissionStatus s)
      (submissionError s) (updatedFields s))).
Definition setSubmissionStatus (v : SubmissionStatus) : M unit :=
  modify (λ w,
    mkWorld
      (let s := state w in
       mkAppState (expenseData s) (receiptFile s) (receiptPreview s)
         (naturalLanguageQuery s) (isAiLoading s) (aiError s) v
         (submissionError s) (updatedFields s))
      (next_oid w) (timers w) (reads w) (requests w) (v :: entered w)).
Definition setSubmissionError (v : option string) : M unit :=
  modify (with_state (λ s,
    mkAppState (expenseData s) (receiptFile s) (receiptPreview s)
      (naturalLanguageQuery s) (isAiLoading s) (aiError s)
      (submissionStatus s) v (updatedFields s))).
Definition setUpdatedFields (o : Obj (gset string)) : M unit :=
  modify (with_state (λ s,
    mkAppState (expenseData s) (receiptFile s) (receiptPreview s)
      (naturalLanguageQuery s) (isAiLoading s) (aiError s)
      (submissionStatus s) (submissionError s) o)).

(** An object literal or a [new]: a fresh identity. *)
Definition alloc {A} (v : A) : M (Obj A) := λ w,
  (Js.Ok (mkObj (next_oid w) v),
   mkWorld (state w) (S (next_oid w)) (timers w) (reads w) (requests w)
           (entered w)).

(** [setExpenseData(prev => literal(prev))]: the updater runs on the
    current record and its object literal is a new object. *)
Definition setExpenseData (updater : ExpenseData → ExpenseData) : M unit :=
  s ← get_state;
  o ← alloc (updater (oval (expenseData s)));
  set_expenseData o.

Definition setTimeout (callback : TimerCallback) (ms : Z) : M unit :=
  modify (λ w, mkWorld (state w) (next_oid w) ((callback, ms) :: timers w)
                       (reads w) (requests w) (entered w)).

(** [reader.readAsDataURL(file)] with [reader.onloadend] set. *)
Definition readAsDataURL (file : File) : M unit :=
  modify (λ w, mkWorld (state w) (next_oid w) (timers w) (file :: reads w)
                       (requests w) (entered w)).

(** [await fetch(...)]: the request leaves, then the promise settles as
    the network decides. *)
Definition fetch (request : Request) (net : Js.Settled unit) : M unit :=
  modify (λ w, mkWorld (state w) (next_oid w) (timers w) (reads w)
                       (request :: requests w) (entered w));;
  lift (await net).

(** ** [services/n8nService.ts] *)

Section N8nService.
Context `{!Runtime}.

(** [String(value)] for a field of the record. *)
Definition String_of_amount (a : Amount) : string :=
  match a with
  | AmountEmpty => ""
  | AmountNumber n => Number_toString n
  end.

(** [Object.entries(data)] with each value under [String]: the keys come
    in the order of the literal [emptyExpenseState], which every spread
    keeps. *)
Definition entries (data : ExpenseData) : list (string * FormValue) :=
  [ ("employeeName", FormString (employeeName data));
    ("employeeId", FormString (employeeId data));
    ("expenseCategory", FormString (expenseCategory data));
    ("project", FormString (project data));
    ("expenseTitle", FormString (expenseTitle data));
    ("expenseDate", FormString (expenseDate data));
    ("currency", FormString (currency data));
    ("amount", FormString (String_of_amount (amount data)));
    ("comment", FormString (comment data)) ].

(** The [FormData] that [submitExpense] fills; [now] is
    [new Date().toISOString()] at that moment. *)
Definition build_formData (now : string) (data : ExpenseData)
    (receipt : option File) : list (string * FormValue) :=
  entries data ++
  [("timestamp", FormString now)] ++
  match receipt with
  | Some file => [("receipt", FormBlob file (file_name file))]
  | None => []
  end ++
  [("status", FormString "Submitted")].

(** [submitExpense(data, receiptFile)] with the constant
    [N8N_WEBHOOK_URL] as the parameter [url]; [net] is how the [fetch]
    settles if it is made. *)
Definition submitExpense_at (url now : string) (data : ExpenseData)
    (receipt : option File) (net : Js.Settled unit) : M unit :=
  if Str.includes url "n8n.example.com" then
    throw (Js.mkError
      "Submission failed. The n8n webhook URL has not been configured in 'constants.ts'.")
  else
    let formData := build_formData now data receipt in
    catch (fetch (mkRequest url "POST" formData "no-cors") net)
          (λ _, throw (Js.mkError
             "Could not submit your expense. Please check your network connection and webhook configuration.")).

Definition submitExpense : string → ExpenseData → option File → Js.Settled unit → M unit :=
  submitExpense_at N8N_WEBHOOK_URL.

End N8nService.

(** ** [App.tsx] *)

Section App.
Context `{!Runtime}.

(** The module constant [emptyExpenseState]: one object, allocated
    once. *)
Definition emptyExpenseState : Obj ExpenseData :=
  mkObj 0
    {| employeeName := "Snehal Papnoi";
       employeeId := "snehalpapnoi9@gmail.com";
       expenseCategory := "";
       project := "";
       expenseTitle := "";
       expenseDate := default "" (date_part loaded_at);
       currency := "INR";
       amount := AmountEmpty;
       comment := "" |}.

(** The first render: the initial values of the [useState] cells. *)
Definition initial_world : World :=
  mkWorld
    (mkAppState emptyExpenseState None None "" false None IDLE None (mkObj 1 ∅))
    2 [] [] [] [].

Definition resetForm : M unit :=
  set_expenseData emptyExpenseState;;
  setReceiptFile None;;
  setReceiptPreview None;;
  setNaturalLanguageQuery "";;
  setAiError None.

Definition removeReceipt : M unit :=
  setReceiptFile None;;
  setReceiptPreview None;;
  setAiError None.

(** [{ ...prev, [name]: value }] for the [name] and [value] of a form
    control. Every control of the form is named after a field of the
    record; another [name] is not given a meaning here. *)
Definition assign (prev : ExpenseData) (name value : string) : ExpenseData :=
  let a := if Js.string_truthy value then AmountNumber (parseFloat value)
           else AmountEmpty in
  if String.eqb name "amount" then
    mkExpenseData (expenseCategory prev) (project prev) (expenseTitle prev)
      (expenseDate prev) (currency prev) a (comment prev)
      (employeeName prev) (employeeId prev)
  else if String.eqb name "expenseCategory" then
    mkExpenseData value (project prev) (expenseTitle prev)
      (expenseDate prev) (currency prev) (amount prev) (comment prev)
      (employeeName prev) (employeeId prev)
  else if String.eqb name "project" then
    mkExpenseData (expenseCategory prev) value (expenseTitle prev)
      (expenseDate prev) (currency prev) (amount prev) (comment prev)
      (employeeName prev) (employeeId prev)
  else if String.eqb name "expenseTitle" then
    mkExpenseData (expenseCategory prev) (project prev) value
      (expenseDate prev) (currency prev) (amount prev) (comment prev)
      (employeeName prev) (employeeId prev)
  else if String.eqb name "expenseDate" then
    mkExpenseData (expenseCategory prev) (project prev) (expenseTitle prev)
      value (currency prev) (amount prev) (comment prev)
      (employeeName prev) (employeeId prev)
  else if String.eqb name "currency" then
    mkExpenseData (expenseCategory prev) (project prev) (expenseTitle prev)
      (expenseDate prev) value (amount prev) (comment prev)
      (employeeName prev) (employeeId prev)
  else if String.eqb name "comment" then
    mkExpenseData (expenseCategory prev) (project prev) (expenseTitle prev)
      (expenseDate prev) (currency prev) (amount prev) value
      (employeeName prev) (employeeId prev)
  else if String.eqb name "employeeName" then
    mkExpenseData (expenseCategory prev) (project prev) (expenseTitle prev)
      (expenseDate prev) (currency prev) (amount prev) (comment prev)
      value (employeeId prev)
  else if String.eqb name "employeeId" then
    mkExpenseData (expenseCategory prev) (project prev) (expenseTitle prev)
      (expenseDate prev) (currency prev) (amount prev) (comment prev)
      (employeeName prev) value
  else prev.

Definition handleDataChange (name value : string) : M unit :=
  setExpenseData (λ prev, assign prev name value).

(** The callback of the timer set by [handleAiParseSuccess]. *)
Definition run_timer (callback : TimerCallback) : M unit :=
  match callback with
  | ClearUpdatedFields => fresh ← alloc ∅; setUpdatedFields fresh
  end.

Definition handleAiParseSuccess (parsedData : PartialExpenseData) : M unit :=
  if Nat.eqb (length (Object_keys parsedData)) 0 then mret tt
  else
    (* Don't overwrite employee details if AI suggests them *)
    let restOfParsedData := rest_without_employee parsedData in
    setExpenseData (λ prev, spread prev restOfParsedData);;
    keys ← alloc (list_to_set (Object_keys restOfParsedData));
    setUpdatedFields keys;;
    setTimeout ClearUpdatedFields 2500.

Definition handleNlpParse (reply : Js.Settled GenerateContentResponse) : M unit :=
  setAiError None;;
  s ← get_state;
  let query := naturalLanguageQuery s in
  if negb (Js.string_truthy (Str.trim query)) then
    setAiError (Some "Please enter a description.")
  else if Nat.ltb 500 (String.length query) then
    setAiError (Some "Input is too long. Please keep it under 500 characters.")
  else
    setIsAiLoading true;;
    finally
      (catch
         (parsedData ← lift (parseTextFromNaturalLanguage query reply);
          handleAiParseSuccess parsedData)
         (λ error, setAiError (Some (Js.message error))))
      (setIsAiLoading false).

(** [sentence.charAt(0).toUpperCase() + sentence.slice(1)]. *)
Definition capitalize (sentence : string) : string :=
  match sentence with
  | EmptyString => EmptyString
  | String c rest => String (Str.upper c) rest
  end.

Definition amount_truthy (a : option Amount) : bool :=
  match a with
  | Some (AmountNumber n) => Js.number_truthy n
  | Some AmountEmpty | None => false
  end.

Definition field_truthy (field : option string) : bool :=
  match field with
  | Some s => Js.string_truthy s
  | None => false
  end.

(** The sentence that [handleOcrParse] writes into the description box
    from a non-empty suggestion. *)
Definition describe (parsedData : PartialExpenseData) : string :=
  let descriptionParts : list string :=
    (if amount_truthy (p_amount parsedData) then
       [Str.trim ("Spent " +:+ String_of_amount (default AmountEmpty (p_amount parsedData))
                  +:+ " " +:+ (if field_truthy (p_currency parsedData)
                               then default "" (p_currency parsedData) else ""))]
     else []) ++
    (if field_truthy (p_expenseTitle parsedData) then
       ["at " +:+ default "" (p_expenseTitle parsedData)] else []) ++
    (if field_truthy (p_expenseDate parsedData) then
       ["on " +:+ default "" (p_expenseDate parsedData)] else []) ++
    (if field_truthy (p_project parsedData) then
       ["for project " +:+ default "" (p_project parsedData)] else []) ++
    (if field_truthy (p_expenseCategory parsedData) then
       ["(category: " +:+ default "" (p_expenseCategory parsedData) +:+ ")"] else []) in
  capitalize (Str.join " " descriptionParts +:+ ".").

(** [handleOcrParse(dataUrl, mimeType)]; [reply] is how the remote call
    settles. [dataUrl] is [reader.result], [null] after a failed read. *)
Definition handleOcrParse (dataUrl : option string) (mimeType : string)
    (reply : Js.Settled GenerateContentResponse) : M unit :=
  base64String ← match dataUrl with
                 | Some url => mret (Str.split "," url !! 1%nat)
                 | None => throw (Js.mkError "Cannot read properties of null")
                 end;
  if negb (field_truthy base64String) then mret tt
  else
    setIsAiLoading true;;
    setAiError None;;
    finally
      (catch
         (parsedData ← lift (parseReceiptFromImage (default "" base64String) mimeType reply);
          handleAiParseSuccess parsedData;;
          if Nat.ltb 0 (length (Object_keys parsedData)) then
            setNaturalLanguageQuery (describe parsedData)
          else
            setNaturalLanguageQuery
              "AI parsed the receipt. Please review the fields below or describe the expense manually.")
         (λ error, setAiError (Some (Js.message error))))
      (setIsAiLoading false).

(** [handleFileChange(e)] with [file = e.target.files?.[0]]. Clearing the
    input control ([e.target.value = '']) is outside the state. *)
Definition handleFileChange (file : option File) : M unit :=
  match file with
  | None => mret tt
  | Some file =>
      setAiError None;;
      if negb (Str.startsWith (file_type file) "image/") then
        setAiError (Some "Only image files are supported.")
      else
        let MAX_FILE_SIZE_BYTES := (5 * 1024 * 1024)%N in
        if N.ltb MAX_FILE_SIZE_BYTES (file_size file) then
          setAiError (Some "File is too large. Please upload an image under 5MB.")
        else
          setReceiptFile (Some file);;
          readAsDataURL file
  end.

(** [reader.onloadend] for the read of [file]: [result] is
    [reader.result], a data URL, or [null] when the read failed. *)
Definition onloadend (file : File) (result : option string)
    (reply : Js.Settled GenerateContentResponse) : M unit :=
  setReceiptPreview result;;
  unawaited (handleOcrParse result (file_type file) reply).

(** [Number(expenseData.amount)]. *)
Definition Number_of_amount (a : Amount) : Js.number :=
  match a with
  | AmountEmpty => Js.of_Z 0
  | AmountNumber n => n
  end.

(** The array [errors] that [validateForm] fills. *)
Definition validation_errors (data : ExpenseData) (receipt : option File)
  : list string :=
  let errors : list string := [] in
  let errors := if negb (Js.string_truthy (expenseCategory data))
                then errors ++ ["Expense Category"] else errors in
  let errors := if negb (Js.string_truthy (project data))
                then errors ++ ["Project / Cost Center"] else errors in
  let errors := if negb (Js.string_truthy (expenseTitle data))
                then errors ++ ["Expense Title"] else errors in
  let errors := if negb (Js.string_truthy (expenseDate data))
                then errors ++ ["Expense Date"] else errors in
  let errors := match amount data with
                | AmountEmpty => errors ++ ["Amount"]
                | AmountNumber _ => errors
                end in
  let errors := if negb (Js.string_truthy (comment data))
                then errors ++ ["Comment"] else errors in
  let errors := if Js.gt (Number_of_amount (amount data)) (Js.of_Z 500)
                   && negb (bool_decide (is_Some receipt))
                then errors ++ ["Upload Receipt"] else errors in
  errors.

Definition validateForm (s : AppState) : option string :=
  let errors := validation_errors (oval (expenseData s)) (receiptFile s) in
  if Nat.ltb 0 (length errors) then
    Some ("Please complete all required fields: " +:+ Str.join ", " errors +:+ ".")
  else None.

(** [handleSubmit(e)]: [now] is the time of the submission and [net] how
    the [fetch] settles if it is made. *)
Definition handleSubmit (now : string) (net : Js.Settled unit) : M unit :=
  s ← get_state;
  let validationError := validateForm s in
  if field_truthy validationError then
    setSubmissionError validationError;;
    setSubmissionStatus ERROR
  else
    setSubmissionStatus SUBMITTING;;
    setSubmissionError None;;
    catch
      (submitExpense now (oval (expenseData s)) (receiptFile s) net;;
       setSubmissionStatus SUCCESS;;
       resetForm)
      (λ error,
         setSubmissionError (Some (Js.message error));;
         setSubmissionStatus ERROR).

(** [onClose] of the result dialog. *)
Definition closeModal : M unit := setSubmissionStatus IDLE.

End App.

(** * Notions used in the statements *)

(** The piece of [s] before the first [sep]. *)
Fixpoint before (sep : ascii) (s : string) : string :=
  match s with
  | EmptyString => EmptyString
  | String c s' => if Ascii.eqb c sep then EmptyString else String c (before sep s')
  end.

(** The shape [YYYY-MM-DD]: four digits, a hyphen, two digits, a hyphen,
    two digits. *)
Definition is_YYYY_MM_DD (s : string) : bool :=
  match s with
  | String y1 (String y2 (String y3 (String y4 (String h1
      (String m1 (String m2 (String h2 (String d1 (String d2 EmptyString))))))))) =>
      Str.is_digit y1 && Str.is_digit y2 && Str.is_digit y3 && Str.is_digit y4
      && Ascii.eqb h1 "-" && Str.is_digit m1 && Str.is_digit m2
      && Ascii.eqb h2 "-" && Str.is_digit d1 && Str.is_digit d2
  | _ => false
  end.

(** The own property [k] of a parsed value, [None] on a value that is no
    object. *)
Definition prop (v : Js.value) (k : string) : option Js.value :=
  match v with
  | Js.Obj props => props !! k
  | _ => None
  end.

(** A value that is a string of the enumeration. *)
Definition valid_category (v : option Js.value) : option string :=
  c ← Js.as_string v;
  if bool_decide (c ∈ EXPENSE_CATEGORIES) then Some c else None.

(** The error with which [parseJsonResponse] fails. *)
Definition could_not_understand : Js.Error :=
  Js.mkError "Could not understand the AI's response. Please try again or enter manually.".

(** The error with which [submitExpense] refuses a placeholder URL. *)
Definition not_configured : Js.Error :=
  Js.mkError "Submission failed. The n8n webhook URL has not been configured in 'constants.ts'.".

(** The error with which [submitExpense] reports a failed [fetch]. *)
Definition could_not_submit : Js.Error :=
  Js.mkError "Could not submit your expense. Please check your network connection and webhook configuration.".

(** The invariant of the attachment: a preview exactly when a file. *)
Definition attachment_ok (s : AppState) : Prop :=
  is_Some (receiptPreview s) ↔ is_Some (receiptFile s).

(** The two components of the attachment. *)
Definition attachment (w : World) : option File * option string :=
  (receiptFile (state w), receiptPreview (state w)).

(** A program that leaves the attachment as it found it, however it
    ends. *)
Definition keeps_attachment {A} (m : M A) : Prop :=
  ∀ w, attachment (snd (m w)) = attachment w.

(** A file that [handleFileChange] accepts: an image of at most 5 MB. *)
Definition accepted (file : File) : bool :=
  Str.startsWith (file_type file) "image/" &&
  negb (N.ltb (5 * 1024 * 1024) (file_size file)).

(** The amount is a number strictly above 500. *)
Definition exceeds_500 (a : Amount) : Prop :=
  match a with
  | AmountNumber (Js.Finite q) => (500 < q)%Q
  | AmountNumber (Js.Infinity false) => True
  | AmountNumber (Js.Infinity true) | AmountNumber Js.NaN | AmountEmpty => False
  end.

(** The five required texts of a record are filled in. *)
Definition texts_filled (data : ExpenseData) : Prop :=
  expenseCategory data ≠ "" ∧ project data ≠ "" ∧ expenseTitle data ≠ "" ∧
  expenseDate data ≠ "" ∧ comment data ≠ "".

(** The names that [validateForm] can report, in the order of its checks. *)
Definition check_order : list string :=
  [ "Expense Category"; "Project / Cost Center"; "Expense Title";
    "Expense Date"; "Amount"; "Comment"; "Upload Receipt" ].

(** The report of one check: its name when the check fails. *)
Definition report (failed : bool) (name : string) : list string :=
  if failed then [name] else [].

(** A rendered form that holds the record [r], with no field
    highlighted, no attachment and nothing in flight. *)
Definition form_holding (r : ExpenseData) : World :=
  mkWorld (mkAppState (mkObj 2 r) None None "" false None IDLE None (mkObj 1 ∅))
          3 [] [] [] [].

(** * Sample data *)

Definition dq : string := String (ascii_of_nat 34) EmptyString.
Definition quoted (s : string) : string := dq +:+ s +:+ dq.

(** The response text [null]. *)
Definition null_runtime : Runtime := table_runtime [("null", Js.Null)].

(** The response text [{"expenseDate":"10/07/2024"}]. *)
Definition slash_date_text : string :=
  "{" +:+ quoted "expenseDate" +:+ ":" +:+ quoted "10/07/2024" +:+ "}".
Definition slash_date_runtime : Runtime :=
  table_runtime [(slash_date_text, Js.Obj {[ "expenseDate" := Js.Str "10/07/2024" ]})].

(** The response text
    [{"expenseCategory":"Unknown","expenseDate":"2024-07-10T00:00:00Z","currency":"inr","amount":12}]
    inside a Markdown fence. *)
Definition unknown_category_text : string :=
  "{" +:+ quoted "expenseCategory" +:+ ":" +:+ quoted "Unknown" +:+ ","
      +:+ quoted "expenseDate" +:+ ":" +:+ quoted "2024-07-10T00:00:00Z" +:+ ","
      +:+ quoted "currency" +:+ ":" +:+ quoted "inr" +:+ ","
      +:+ quoted "amount" +:+ ":12}".
Definition unknown_category_value : Js.value :=
  Js.Obj {[ "expenseCategory" := Js.Str "Unknown";
            "expenseDate" := Js.Str "2024-07-10T00:00:00Z";
            "currency" := Js.Str "inr";
            "amount" := Js.Num (Js.of_Z 12) ]}.
Definition unknown_category_runtime : Runtime :=
  table_runtime [(unknown_category_text, unknown_category_value)].
Definition unknown_category_response : GenerateContentResponse :=
  mkResponse (Some ("```json" +:+ unknown_category_text +:+ "```")).


(** A suggestion that names the employee and nothing else. *)
Definition employee_only : PartialExpenseData :=
  mkPartial None None None None None None None (Some "Mallory") None.

(** A suggestion of a title, an amount and an employee name. *)
Definition taxi_suggestion : PartialExpenseData :=
  mkPartial None None (Some "Taxi") None None
            (Some (AmountNumber (Js.of_Z 640))) None (Some "Mallory") None.

(** A receipt image of 2 KB. *)
Definition receipt_png : File := mkFile "receipt.png" "image/png" 2048.

(** A record with every required field filled in and the given amount. *)
Definition taxi_record (amount : Z) : ExpenseData :=
  {| employeeName := "Snehal Papnoi";
     employeeId := "snehalpapnoi9@gmail.com";
     expenseCategory := ExpenseCategory.TRAVEL;
     project := "Sales";
     expenseTitle := "Taxi (to/from Delhi Airport)";
     expenseDate := "2024-07-10";
     currency := "INR";
     amount := AmountNumber (Js.of_Z amount);
     comment := "Client visit" |}.

(** The record of the specification's example: no category, project,
    title or comment, a date, and the amount zero. *)
Definition sparse_record : ExpenseData :=
  {| employeeName := "Snehal Papnoi";
     employeeId := "snehalpapnoi9@gmail.com";
     expenseCategory := "";
     project := "";
     expenseTitle := "";
     expenseDate := "2024-07-10";
     currency := "INR";
     amount := AmountNumber (Js.of_Z 0);
     comment := "" |}.

(** A placeholder endpoint. *)
Definition placeholder_url : string := "https://n8n.example.com/webhook/expense".

(** * Notions for the further properties *)

(** A property of the world that a program keeps, however it ends. *)
Definition preserves (P : World → Prop) {A} (m : M A) : Prop :=
  ∀ w, P w → P (snd (m w)).

(** The record names the employee of the session. *)
Definition default_employee (w : World) : Prop :=
  employeeName (oval (expenseData (state w))) = "Snehal Papnoi" ∧
  employeeId (oval (expenseData (state w))) = "snehalpapnoi9@gmail.com".


(** The category of the record is unset or one of the enumeration. *)
Definition category_in_domain (w : World) : Prop :=
  expenseCategory (oval (expenseData (state w))) ∈ "" :: EXPENSE_CATEGORIES.

(** The errors with which the two extraction calls fail. *)
Definition nlp_unavailable : Js.Error :=
  Js.mkError "Failed to process your request. The AI service may be unavailable.".
Definition ocr_unavailable : Js.Error :=
  Js.mkError "Failed to read the receipt. The AI service may be unavailable.".

(** The [name] attributes of the seven controls of the form. *)
Definition control_names : list string :=
  [ "expenseCategory"; "project"; "expenseTitle"; "expenseDate";
    "currency"; "amount"; "comment" ].

(** The keys of the multipart body, without and with a receipt. *)
Definition payload_keys (receipt : option File) : list string :=
  [ "employeeName"; "employeeId"; "expenseCategory"; "project";
    "expenseTitle"; "expenseDate"; "currency"; "amount"; "comment";
    "timestamp" ] ++
  match receipt with Some _ => ["receipt"] | None => [] end ++
  [ "status" ].

(** A form that holds the record [r] with the file [file] attached and
    its preview loaded. *)
Definition form_with_receipt (r : ExpenseData) (file : File) (preview : string)
  : World :=
  mkWorld (mkAppState (mkObj 2 r) (Some file) (Some preview) "" false None IDLE
                      None (mkObj 1 ∅))
          3 [] [] [] [].

(** A form that holds the record [r] and the description [query]. *)
Definition form_describing (r : ExpenseData) (query : string) : World :=
  mkWorld (mkAppState (mkObj 2 r) None None query false None IDLE None (mkObj 1 ∅))
          3 [] [] [] [].

(** The response text [42], a JSON number. *)
Definition number_runtime : Runtime := table_runtime [("42", Js.Num (Js.of_Z 42))].

(** A data URL without a comma, hence without payload. *)
Definition no_payload_url : string := "data:image/png;base64".

(** The string is empty or begins with a character that is no white
    space. *)
Definition no_leading_space (s : string) : bool :=
  match s with
  | EmptyString => true
  | String c _ => negb (Str.is_space c)
  end.

(** A fenced answer: [{"amount":12}] between [```json] and [```]. *)
Definition amount_body : string := "{" +:+ quoted "amount" +:+ ":12}".

(** The form after a failed extraction: the extraction error is
    [message], the spinner is off, and every other cell, timer, read and
    request is as in [w]. *)
Definition shows_ai_error (message : string) (w : World) : World :=
  with_state (λ s,
    mkAppState (expenseData s) (receiptFile s) (receiptPreview s)
      (naturalLanguageQuery s) false (Some message) (submissionStatus s)
      (submissionError s) (updatedFields s)) w.

(** No extraction is shown as running. *)
Definition spinner_off (w : World) : Prop := isAiLoading (state w) = false.

(** The sentence that stands for an empty suggestion. *)
Definition review_sentence : string :=
  "AI parsed the receipt. Please review the fields below or describe the expense manually.".

(** None of the five fields that [handleOcrParse] puts into its sentence
    is truthy in the suggestion. *)
Definition undescribed (s : PartialExpenseData) : bool :=
  negb (amount_truthy (p_amount s)) && negb (field_truthy (p_expenseTitle s)) &&
  negb (field_truthy (p_expenseDate s)) && negb (field_truthy (p_project s)) &&
  negb (field_truthy (p_expenseCategory s)).

(** The answer [{"amount":0,"currency":"inr"}]. *)
Definition zero_amount_text : string :=
  "{" +:+ quoted "amount" +:+ ":0," +:+ quoted "currency" +:+ ":" +:+ quoted "inr" +:+ "}".
Definition zero_amount_runtime : Runtime :=
  table_runtime
    [(zero_amount_text,
      Js.Obj {[ "amount" := Js.Num (Js.of_Z 0); "currency" := Js.Str "inr" ]})].
Definition zero_amount : PartialExpenseData :=
  mkPartial None None None None (Some "INR") (Some (AmountNumber (Js.of_Z 0)))
            None None None.

(** A data URL with the payload [iVBORw0KGgo=]. *)
Definition png_url : string := "data:image/png;base64,iVBORw0KGgo=".

(** * Properties *)

(** ** Strings *)

Section Strings.

Lemma split_cons sep s :
  ∃ pieces, Str.split sep s = before sep s :: pieces.
Proof.
  induction s as [|c s [pieces IH]]; simpl.
  - by exists [].
  - destruct (Ascii.eqb c sep); [by eexists|].
    rewrite IH. by eexists.
Qed.

Lemma split_first sep s : Str.split sep s !! 0%nat = Some (before sep s).
Proof. destruct (split_cons sep s) as [pieces ->]. done. Qed.

Lemma before_free sep s : Str.mem sep (before sep s) = false.
Proof.
  induction s as [|c s IH]; simpl; [done|].
  destruct (Ascii.eqb c sep) eqn:E; simpl; [done|].
  by rewrite E, IH.
Qed.

Lemma before_id sep s : Str.mem sep s = false → before sep s = s.
Proof.
  induction s as [|c s IH]; simpl; [done|].
  destruct (Ascii.eqb c sep); simpl; [done|].
  intros Hs. by rewrite IH.
Qed.

Lemma before_idem sep s : before sep (before sep s) = before sep s.
Proof. apply before_id, before_free. Qed.

Lemma date_part_eq s : date_part s = Some (before "T" s).
Proof. apply split_first. Qed.

Lemma upper_not_lower c : Str.is_lower (Str.upper c) = false.
Proof.
  unfold Str.upper, Str.is_lower.
  destruct (Nat.leb 97 (nat_of_ascii c) && Nat.leb (nat_of_ascii c) 122) eqn:E;
    [|done].
  apply andb_prop in E as [H1%Nat.leb_le H2%Nat.leb_le].
  rewrite nat_ascii_embedding by lia.
  apply andb_false_iff. left. apply Nat.leb_gt. lia.
Qed.

Lemma toUpperCase_no_lower s : Str.all (λ c, negb (Str.is_lower c)) (Str.toUpperCase s) = true.
Proof.
  induction s as [|c s IH]; simpl; [done|].
  by rewrite upper_not_lower, IH.
Qed.

Lemma string_truthy_spec s : Js.string_truthy s = true ↔ s ≠ "".
Proof. by destruct s. Qed.

Lemma string_falsy_spec s : negb (Js.string_truthy s) = true ↔ s = "".
Proof. by destruct s. Qed.

End Strings.

(** ** The extraction service *)

(** C10. The normalisation of [expenseDate], the piece before the first
    ['T'], always yields a string; applying it again yields the same
    string; and a string with no ['T'] is returned as it is. *)
Theorem date_part_idempotent (s : string) :
  ∃ d, date_part s = Some d ∧
       date_part d = Some d ∧
       (Str.mem "T" s = false → d = s).
Proof.
  exists (before "T" s). rewrite !date_part_eq, before_idem.
  split_and!; [done..|]. apply before_id.
Qed.

Lemma category_truthy c : c ∈ EXPENSE_CATEGORIES → Js.string_truthy c = true.
Proof.
  unfold EXPENSE_CATEGORIES. rewrite !elem_of_cons, elem_of_nil.
  intros [->|[->|[->|[->|[]]]]]; reflexivity.
Qed.

(** The guard of the category in the code, a truthiness test and a
    membership test, accepts exactly the strings of the enumeration. *)
Lemma category_check cat :
  (if Js.truthy cat && Js.includes_value EXPENSE_CATEGORIES cat
   then Js.as_string cat else None) = valid_category cat.
Proof.
  destruct cat as [[| | |c| |]|]; simpl; rewrite ?andb_false_r; try done.
  unfold valid_category; simpl.
  case_bool_decide as Hc; rewrite ?andb_false_r; [|done].
  by rewrite (category_truthy _ Hc).
Qed.

Lemma null_or_not (v : Js.value) : {v = Js.Null} + {v ≠ Js.Null}.
Proof. destruct v; (by left) || (by right). Qed.

Section GeminiProperties.
Context `{!Runtime}.

(** What the "Sanitize data" block returns on any value but [null]. *)
Lemma sanitize_ok v :
  v ≠ Js.Null →
  sanitize v = Js.Ok
    {| p_expenseCategory := valid_category (prop v "expenseCategory");
       p_project := Js.as_string (prop v "project");
       p_expenseTitle := Js.as_string (prop v "expenseTitle");
       p_expenseDate := Js.as_string (prop v "expenseDate") ≫= date_part;
       p_currency := Str.toUpperCase <$> Js.as_string (prop v "currency");
       p_amount := AmountNumber <$> Js.as_number (prop v "amount");
       p_comment := Js.as_string (prop v "comment");
       p_employeeName := None;
       p_employeeId := None |}.
Proof.
  intros Hv. destruct v as [| | | | |props]; try done.
  unfold sanitize, prop. cbn [Js.get mbind Result_bind].
  rewrite <- category_check.
  generalize (props !! "expenseCategory")
    (Js.as_string (props !! "project"))
    (Js.as_string (props !! "expenseTitle"))
    (Js.as_string (props !! "expenseDate"))
    (Js.as_string (props !! "currency"))
    (Js.as_number (props !! "amount"))
    (Js.as_string (props !! "comment")).
  intros cat o1 o2 o3 o4 o5 o6.
  destruct (Js.truthy cat && Js.includes_value EXPENSE_CATEGORIES cat),
    o1, o2, o3, o4, o5, o6; reflexivity.
Qed.

Lemma sanitize_null : ∃ e, sanitize Js.Null = Js.Throw e.
Proof. by eexists. Qed.

(** [parseJsonResponse] by cases on the response. *)
Lemma parseJsonResponse_cases response :
  parseJsonResponse response =
    match text response with
    | None => Js.Throw could_not_understand
    | Some t =>
        match JSON_parse (strip_fence (Str.trim t)) with
        | None | Some Js.Null => Js.Throw could_not_understand
        | Some v => sanitize v
        end
    end.
Proof.
  unfold parseJsonResponse. destruct (text response) as [t|]; [|done].
  cbn [mbind Result_bind].
  destruct (JSON_parse (strip_fence (Str.trim t))) as [v|]; [|done].
  cbn [mbind Result_bind].
  destruct (null_or_not v) as [->|Hv]; [done|].
  rewrite (sanitize_ok v Hv). by destruct v.
Qed.

(** C4, as amended. Take any response. If its text parses to a value
    other than [null], the call returns a suggestion in which every field
    is decided on its own: the category is kept when it is a string of
    the enumeration, a text field when it is a string (the date cut at
    its first ['T'], the currency in upper case), the amount when it is a
    number, and a field that fails its test is absent while the others
    stay. The call fails exactly when the response has no text, the text
    is not JSON, or the text is the JSON [null]. The two extraction
    calls return what [parseJsonResponse] returns. *)
Theorem parseJsonResponse_partial_success (response : GenerateContentResponse) :
  (∀ t v,
     text response = Some t →
     JSON_parse (strip_fence (Str.trim t)) = Some v →
     v ≠ Js.Null →
     ∃ s, parseJsonResponse response = Js.Ok s ∧
          p_expenseCategory s = valid_category (prop v "expenseCategory") ∧
          p_project s = Js.as_string (prop v "project") ∧
          p_expenseTitle s = Js.as_string (prop v "expenseTitle") ∧
          p_expenseDate s = Js.as_string (prop v "expenseDate") ≫= date_part ∧
          p_currency s = Str.toUpperCase <$> Js.as_string (prop v "currency") ∧
          p_amount s = AmountNumber <$> Js.as_number (prop v "amount") ∧
          p_comment s = Js.as_string (prop v "comment") ∧
          p_employeeName s = None ∧ p_employeeId s = None) ∧
  ((∃ e, parseJsonResponse response = Js.Throw e) ↔
   text response = None ∨
   ∃ t, text response = Some t ∧
        (JSON_parse (strip_fence (Str.trim t)) = None ∨
         JSON_parse (strip_fence (Str.trim t)) = Some Js.Null)) ∧
  (∀ s description,
     parseTextFromNaturalLanguage description (Js.Fulfilled response) = Js.Ok s
     ↔ parseJsonResponse response = Js.Ok s) ∧
  (∀ s base64Image mimeType,
     parseReceiptFromImage base64Image mimeType (Js.Fulfilled response) = Js.Ok s
     ↔ parseJsonResponse response = Js.Ok s).
Proof.
  assert (∀ s (e : Js.Error),
    try_catch (parseJsonResponse response) (λ _, Js.Throw e) = Js.Ok s
    ↔ parseJsonResponse response = Js.Ok s) as Hcall.
  { intros s e. by destruct (parseJsonResponse response). }
  split; [|split; [|split; intros; apply Hcall]].
  all: rewrite parseJsonResponse_cases.
  - intros t v Ht Hparse Hv. rewrite Ht, Hparse, (sanitize_ok v Hv).
    destruct v; try done; eexists; (split; [reflexivity|]); by split_and!.
  - destruct (text response) as [t|]; [|split; [by left|by eexists]].
    destruct (JSON_parse (strip_fence (Str.trim t))) as [v|] eqn:Hparse.
    + destruct (null_or_not v) as [->|Hv].
      * split; [intros _; right; exists t; by split; [|right] | by eexists].
      * rewrite (sanitize_ok v Hv). split.
        -- destruct v; try done; by intros [e ?].
        -- intros [?|(t' & [= <-] & [Hn|Hn])]; [done|..];
             rewrite Hparse in Hn; congruence.
    + split; [intros _; right; exists t; by split; [|left] | by eexists].
Qed.

(** Every suggestion that [parseJsonResponse] returns has a category of
    the enumeration, a date without ['T'], a currency without lower-case
    letters, and no employee field. *)
Lemma parseJsonResponse_domain response s :
  parseJsonResponse response = Js.Ok s →
  (∀ c, p_expenseCategory s = Some c → c ∈ EXPENSE_CATEGORIES) ∧
  (∀ d, p_expenseDate s = Some d → Str.mem "T" d = false) ∧
  (∀ c, p_currency s = Some c →
        Str.all (λ x, negb (Str.is_lower x)) c = true) ∧
  p_employeeName s = None ∧ p_employeeId s = None.
Proof.
  rewrite parseJsonResponse_cases.
  destruct (text response) as [t|]; [|done].
  destruct (JSON_parse (strip_fence (Str.trim t))) as [v|]; [|done].
  destruct (null_or_not v) as [->|Hv]; [done|].
  intros Hs. assert (sanitize v = Js.Ok s) as Hs' by (by destruct v).
  rewrite (sanitize_ok v Hv) in Hs'. injection Hs' as <-. clear Hs. simpl.
  split_and!; [| | |done..].
  - intros c Hc. unfold valid_category in Hc.
    destruct (Js.as_string (prop v "expenseCategory")) as [c'|];
      simplify_option_eq; done.
  - intros d Hd.
    destruct (Js.as_string (prop v "expenseDate")) as [d'|];
      simplify_option_eq.
    rewrite date_part_eq in Hd. injection Hd as <-. apply before_free.
  - intros c Hc.
    destruct (Js.as_string (prop v "currency")) as [c'|];
      simplify_option_eq.
    apply toUpperCase_no_lower.
Qed.

End GeminiProperties.

(** C4, the claim as stated fails: the response text [null] is JSON and
    parses (to [null]), and yet the call fails, because the first
    property read throws inside the [try]. *)
Lemma null_response_parses_and_fails :
  @JSON_parse null_runtime (strip_fence (Str.trim "null")) = Some Js.Null ∧
  @parseJsonResponse null_runtime (mkResponse (Some "null"))
    = Js.Throw could_not_understand.
Proof. split; reflexivity. Qed.

(** The example of the specification: the category ["Unknown"] is
    dropped, and the date, currency and amount of the same response are
    kept, the date without its time of day and the currency in upper
    case. *)
Lemma unknown_category_dropped :
  @parseJsonResponse unknown_category_runtime unknown_category_response
  = Js.Ok (mkPartial None None None (Some "2024-07-10") (Some "INR")
                     (Some (AmountNumber (Js.of_Z 12))) None None None).
Proof. vm_compute. reflexivity. Qed.

(** C6, the date: the response [{"expenseDate":"10/07/2024"}] comes back
    with the date ["10/07/2024"], which is not of the shape YYYY-MM-DD
    that the comment on the line promises. *)
Lemma slash_date_not_normalised :
  @parseJsonResponse slash_date_runtime (mkResponse (Some slash_date_text))
  = Js.Ok (mkPartial None None None (Some "10/07/2024") None None None None None) ∧
  is_YYYY_MM_DD "10/07/2024" = false ∧
  is_YYYY_MM_DD "2024-07-10" = true.
Proof. split_and!; vm_compute; reflexivity. Qed.

(** ** The validator *)

Section Validator.

Lemma elem_of_report x failed name :
  x ∈ report failed name ↔ failed = true ∧ x = name.
Proof.
  destruct failed; simpl.
  - rewrite list_elem_of_singleton. naive_solver.
  - rewrite elem_of_nil. naive_solver.
Qed.

Lemma report_sublist failed name : sublist (report failed name) [name].
Proof. destruct failed; simpl; [done|]. by apply sublist_nil_l. Qed.

(** The checks do not depend on each other: the array is the
    concatenation of the reports of the seven checks. *)
Lemma validation_errors_reports data receipt :
  validation_errors data receipt =
    report (negb (Js.string_truthy (expenseCategory data))) "Expense Category" ++
    report (negb (Js.string_truthy (project data))) "Project / Cost Center" ++
    report (negb (Js.string_truthy (expenseTitle data))) "Expense Title" ++
    report (negb (Js.string_truthy (expenseDate data))) "Expense Date" ++
    report (match amount data with AmountEmpty => true | _ => false end) "Amount" ++
    report (negb (Js.string_truthy (comment data))) "Comment" ++
    report (Js.gt (Number_of_amount (amount data)) (Js.of_Z 500)
            && negb (bool_decide (is_Some receipt))) "Upload Receipt".
Proof.
  unfold validation_errors.
  destruct (negb (Js.string_truthy (expenseCategory data))),
    (negb (Js.string_truthy (project data))),
    (negb (Js.string_truthy (expenseTitle data))),
    (negb (Js.string_truthy (expenseDate data))),
    (amount data) as [|n],
    (negb (Js.string_truthy (comment data)));
    cbn [Number_of_amount];
    match goal with
    | |- context [?a && ?b] => destruct (a && b)
    end; reflexivity.
Qed.

Lemma validation_errors_ordered data receipt :
  sublist (validation_errors data receipt) check_order.
Proof.
  rewrite validation_errors_reports. unfold check_order.
  repeat (apply (sublist_app _ [_]); [apply report_sublist|]).
  apply report_sublist.
Qed.

(** [Number(amount) > 500] is true exactly for a number strictly above
    500; the empty amount counts as zero. *)
Lemma gt_500_spec a :
  Js.gt (Number_of_amount a) (Js.of_Z 500) = true ↔ exceeds_500 a.
Proof.
  destruct a as [|[| [] |q]]; simpl; try done.
  unfold Js.gt, Js.lt, Js.of_Z.
  rewrite negb_true_iff, <- not_true_iff_false, Qle_bool_iff.
  split; [apply Qnot_le_lt | apply Qlt_not_le].
Qed.

Lemma validateForm_none s :
  validateForm s = None ↔
  validation_errors (oval (expenseData s)) (receiptFile s) = [].
Proof.
  unfold validateForm.
  destruct (validation_errors _ _) as [|e errors]; simpl; done.
Qed.

(** C2. [validateForm] runs its six presence checks independently of
    each other: each name is reported exactly when its own field is
    empty, whatever the other fields hold. The names come in the order
    category, project, title, date, amount, comment (and the receipt
    rule last). The number zero is a set amount, the empty amount is
    not. The form is invalid, i.e. a message is returned, exactly when
    the list of violations is not empty. The record of the
    specification's example yields the four names it lists. *)
Theorem validateForm_collects_all (s : AppState) :
  let data := oval (expenseData s) in
  let errors := validation_errors data (receiptFile s) in
  ("Expense Category" ∈ errors ↔ expenseCategory data = "") ∧
  ("Project / Cost Center" ∈ errors ↔ project data = "") ∧
  ("Expense Title" ∈ errors ↔ expenseTitle data = "") ∧
  ("Expense Date" ∈ errors ↔ expenseDate data = "") ∧
  ("Amount" ∈ errors ↔ amount data = AmountEmpty) ∧
  ("Comment" ∈ errors ↔ comment data = "") ∧
  sublist errors check_order ∧
  (amount data = AmountNumber (Js.of_Z 0) → "Amount" ∉ errors) ∧
  (amount data = AmountEmpty → "Amount" ∈ errors) ∧
  (validateForm s = None ↔ errors = []) ∧
  (validateForm s =
     Some ("Please complete all required fields: " +:+ Str.join ", " errors +:+ ".")
   ↔ errors ≠ []) ∧
  validation_errors sparse_record None =
    ["Expense Category"; "Project / Cost Center"; "Expense Title"; "Comment"].
Proof.
  intros data errors.
  assert (∀ x, x ∈ errors ↔
    (negb (Js.string_truthy (expenseCategory data)) = true ∧ x = "Expense Category") ∨
    (negb (Js.string_truthy (project data)) = true ∧ x = "Project / Cost Center") ∨
    (negb (Js.string_truthy (expenseTitle data)) = true ∧ x = "Expense Title") ∨
    (negb (Js.string_truthy (expenseDate data)) = true ∧ x = "Expense Date") ∨
    (match amount data with AmountEmpty => true | _ => false end = true ∧ x = "Amount") ∨
    (negb (Js.string_truthy (comment data)) = true ∧ x = "Comment") ∨
    (Js.gt (Number_of_amount (amount data)) (Js.of_Z 500)
       && negb (bool_decide (is_Some (receiptFile s))) = true ∧ x = "Upload Receipt"))
    as Hin.
  { intros x. unfold errors. rewrite validation_errors_reports.
    by rewrite !elem_of_app, !elem_of_report. }
  assert ("Amount" ∈ errors ↔ amount data = AmountEmpty) as Hamount.
  { rewrite Hin. destruct (amount data); intuition discriminate. }
  split_and!.
  - rewrite Hin, <- string_falsy_spec. intuition discriminate.
  - rewrite Hin, <- string_falsy_spec. intuition discriminate.
  - rewrite Hin, <- string_falsy_spec. intuition discriminate.
  - rewrite Hin, <- string_falsy_spec. intuition discriminate.
  - done.
  - rewrite Hin, <- string_falsy_spec. intuition discriminate.
  - apply validation_errors_ordered.
  - rewrite Hamount. by intros ->.
  - by rewrite Hamount.
  - apply validateForm_none.
  - unfold validateForm. fold data. fold errors.
    destruct errors as [|e errors']; simpl; intuition discriminate.
  - reflexivity.
Qed.

(** C3. The name ["Upload Receipt"] is reported exactly when the amount
    is a number strictly above 500 and no file is attached. With all
    required texts filled in: an amount of 600 without a file is invalid
    and the message names the receipt, the same record with a file is
    valid, and an amount of exactly 500 without a file is valid. *)
Theorem receipt_required_above_500 (s : AppState) :
  let data := oval (expenseData s) in
  ("Upload Receipt" ∈ validation_errors data (receiptFile s) ↔
   exceeds_500 (amount data) ∧ receiptFile s = None) ∧
  (texts_filled data → amount data = AmountNumber (Js.of_Z 600) →
   receiptFile s = None →
   validation_errors data (receiptFile s) = ["Upload Receipt"] ∧
   validateForm s = Some "Please complete all required fields: Upload Receipt.") ∧
  (texts_filled data → amount data = AmountNumber (Js.of_Z 600) →
   is_Some (receiptFile s) →
   validateForm s = None) ∧
  (texts_filled data → amount data = AmountNumber (Js.of_Z 500) →
   receiptFile s = None →
   validateForm s = None).
Proof.
  intros data.
  assert (∀ n, texts_filled data → amount data = AmountNumber n →
    validation_errors data (receiptFile s) =
      report (Js.gt n (Js.of_Z 500) && negb (bool_decide (is_Some (receiptFile s))))
             "Upload Receipt") as Hfilled.
  { intros n (Hc & Hp & Ht & Hd & Hm) Ha. rewrite validation_errors_reports, Ha.
    apply string_truthy_spec in Hc, Hp, Ht, Hd, Hm.
    by rewrite Hc, Hp, Ht, Hd, Hm. }
  split_and!.
  - rewrite validation_errors_reports, !elem_of_app, !elem_of_report.
    rewrite andb_true_iff, gt_500_spec.
    rewrite (negb_true_iff (bool_decide (is_Some (receiptFile s)))).
    rewrite bool_decide_eq_false, <- eq_None_not_Some.
    intuition discriminate.
  - intros Hf Ha Hr. unfold validateForm. fold data.
    rewrite (Hfilled _ Hf Ha), Hr. by split.
  - intros Hf Ha Hr. apply validateForm_none. fold data.
    rewrite (Hfilled _ Hf Ha). by rewrite bool_decide_eq_true_2, andb_false_r.
  - intros Hf Ha Hr. apply validateForm_none. fold data.
    by rewrite (Hfilled _ Hf Ha).
Qed.

End Validator.

(** ** The merge of a suggestion *)

Section Merge.

Lemma Object_keys_nil s : Object_keys s = [] ↔ s = empty_partial.
Proof.
  split; [|by intros ->].
  destruct s as [[?|] [?|] [?|] [?|] [?|] [?|] [?|] [?|] [?|]]; by cbn.
Qed.

(** The world that [handleAiParseSuccess] leaves. *)
Lemma handleAiParseSuccess_exec s w :
  exec (handleAiParseSuccess s) w =
    if Nat.eqb (length (Object_keys s)) 0 then w
    else
      let st := state w in
      mkWorld
        (mkAppState
           (mkObj (next_oid w) (spread (oval (expenseData st)) (rest_without_employee s)))
           (receiptFile st) (receiptPreview st) (naturalLanguageQuery st)
           (isAiLoading st) (aiError st) (submissionStatus st) (submissionError st)
           (mkObj (S (next_oid w))
                  (list_to_set (Object_keys (rest_without_employee s)))))
        (S (S (next_oid w)))
        ((ClearUpdatedFields, 2500%Z) :: timers w)
        (reads w) (requests w) (entered w).
Proof.
  unfold handleAiParseSuccess.
  destruct (Nat.eqb (length (Object_keys s)) 0); reflexivity.
Qed.

(** C1. Whatever the suggestion holds, the record that the merge leaves
    has the employee name and the employee id of the record before; each
    of the seven other fields has the value of the suggestion when the
    suggestion has that key, whatever the record held, and its old value
    otherwise. *)
Theorem merge_protects_employee (w : World) (s : PartialExpenseData) :
  let r := oval (expenseData (state w)) in
  let r' := oval (expenseData (state (exec (handleAiParseSuccess s) w))) in
  employeeName r' = employeeName r ∧
  employeeId r' = employeeId r ∧
  expenseCategory r' = default (expenseCategory r) (p_expenseCategory s) ∧
  project r' = default (project r) (p_project s) ∧
  expenseTitle r' = default (expenseTitle r) (p_expenseTitle s) ∧
  expenseDate r' = default (expenseDate r) (p_expenseDate s) ∧
  currency r' = default (currency r) (p_currency s) ∧
  amount r' = default (amount r) (p_amount s) ∧
  comment r' = default (comment r) (p_comment s).
Proof.
  intros r r'. subst r'. rewrite handleAiParseSuccess_exec.
  destruct (Nat.eqb (length (Object_keys s)) 0) eqn:Hkeys.
  - apply Nat.eqb_eq, length_zero_iff_nil, Object_keys_nil in Hkeys.
    subst s. by split_and!.
  - by split_and!.
Qed.

End Merge.

Section EmptySuggestion.
Context `{!Runtime}.


End EmptySuggestion.


(** ** Submission *)

Lemma webhook_configured : Str.includes N8N_WEBHOOK_URL "n8n.example.com" = false.
Proof. vm_compute. reflexivity. Qed.

Lemma validateForm_message_truthy s :
  validateForm s ≠ None → field_truthy (validateForm s) = true.
Proof.
  unfold validateForm. by destruct (Nat.ltb 0 (length (validation_errors _ _))).
Qed.

Section Submission.
Context `{!Runtime}.

(** C7. With a placeholder endpoint, [submitExpense] throws the
    configuration error at once, whatever the record, the attachment and
    the network: the world is left as it was, so no request has been
    dispatched, and the form data is never reached. *)
Theorem submit_refuses_placeholder (url now : string) (data : ExpenseData)
    (receipt : option File) (net : Js.Settled unit) (w : World) :
  Str.includes url "n8n.example.com" = true →
  submitExpense_at url now data receipt net w = (Js.Throw not_configured, w) ∧
  requests (exec (submitExpense_at url now data receipt net) w) = requests w.
Proof.
  intros Hurl. unfold exec, submitExpense_at. rewrite Hurl. by split.
Qed.

(** With the endpoint of [constants.ts], the request is dispatched and
    the call ends as the network does. *)
Lemma submitExpense_run now data receipt net w :
  submitExpense now data receipt net w =
    (match net with
     | Js.Fulfilled _ => Js.Ok tt
     | Js.Rejected _ => Js.Throw could_not_submit
     end,
     mkWorld (state w) (next_oid w) (timers w) (reads w)
       (mkRequest N8N_WEBHOOK_URL "POST" (build_formData now data receipt) "no-cors"
          :: requests w)
       (entered w)).
Proof.
  unfold submitExpense, submitExpense_at. rewrite webhook_configured.
  by destruct net as [[]|e].
Qed.

Lemma handleSubmit_run now net w :
  handleSubmit now net w =
    (if field_truthy (validateForm (state w)) then
       setSubmissionError (validateForm (state w));;
       setSubmissionStatus ERROR
     else
       setSubmissionStatus SUBMITTING;;
       setSubmissionError None;;
       catch
         (submitExpense now (oval (expenseData (state w))) (receiptFile (state w)) net;;
          setSubmissionStatus SUCCESS;;
          resetForm)
         (λ error,
            setSubmissionError (Some (Js.message error));;
            setSubmissionStatus ERROR)) w.
Proof. reflexivity. Qed.

(** C8. When [validateForm] reports a violation, [handleSubmit] makes no
    request, the submission state becomes [ERROR] and the error shown is
    the validation message; [ERROR] is the only state entered. When the
    validation passes, [SUBMITTING] is entered first and the request is
    dispatched. So [SUBMITTING] is entered exactly when the validation
    passes. *)
Theorem handleSubmit_validates_first (now : string) (net : Js.Settled unit)
    (w : World) :
  let w' := exec (handleSubmit now net) w in
  (validateForm (state w) ≠ None →
   requests w' = requests w ∧
   submissionStatus (state w') = ERROR ∧
   submissionError (state w') = validateForm (state w) ∧
   entered w' = ERROR :: entered w) ∧
  (validateForm (state w) = None →
   ∃ request final,
     requests w' = request :: requests w ∧
     entered w' = final :: SUBMITTING :: entered w ∧
     submissionStatus (state w') = final ∧
     (final = SUCCESS ∨ final = ERROR)) ∧
  (∃ steps, entered w' = steps ++ entered w ∧
            (SUBMITTING ∈ steps ↔ validateForm (state w) = None)).
Proof.
  intros w'. subst w'. unfold exec. rewrite handleSubmit_run.
  destruct (validateForm (state w)) as [message|] eqn:Hvalid.
  - assert (field_truthy (Some message) = true) as ->.
    { rewrite <- Hvalid. apply validateForm_message_truthy. by rewrite Hvalid. }
    cbn. split_and!; [done|done|].
    exists [ERROR]. split; [done|]. rewrite list_elem_of_singleton. done.
  - cbn [field_truthy].
    unfold catch, mbind, M_bind.
    cbn [setSubmissionStatus setSubmissionError modify with_state state next_oid
         timers reads requests entered].
    rewrite submitExpense_run.
    destruct net as [[]|e]; cbn.
    + split_and!; [done|by eexists _, SUCCESS; split_and!; [..|left]|].
      exists [SUCCESS; SUBMITTING]. split; [done|]. set_solver.
    + split_and!; [done|by eexists _, ERROR; split_and!; [..|right]|].
      exists [ERROR; SUBMITTING]. split; [done|]. set_solver.
Qed.

End Submission.

(** C7 at the placeholder endpoint [https://n8n.example.com/webhook/expense]. *)
Lemma placeholder_is_refused :
  @submitExpense_at (table_runtime []) placeholder_url "2024-07-10T10:00:00.000Z"
    (taxi_record 600) (Some receipt_png) (Js.Fulfilled tt)
    (form_holding (taxi_record 600))
  = (Js.Throw not_configured, form_holding (taxi_record 600)).
Proof.
  apply (@submit_refuses_placeholder (table_runtime []) placeholder_url
           "2024-07-10T10:00:00.000Z" (taxi_record 600) (Some receipt_png)
           (Js.Fulfilled tt) (form_holding (taxi_record 600))).
  vm_compute. reflexivity.
Defined.

(** ** The attachment *)

Create HintDb frame discriminated.

Section Frame.

Lemma keeps_ret {A} (a : A) : keeps_attachment (mret a).
Proof. by intros w. Qed.

Lemma keeps_throw {A} e : keeps_attachment (@throw A e).
Proof. by intros w. Qed.

Lemma keeps_lift {A} (r : Js.Result A) : keeps_attachment (lift r).
Proof. by intros w. Qed.

Lemma keeps_get_state : keeps_attachment get_state.
Proof. by intros w. Qed.

Lemma keeps_bind {A B} (m : M A) (f : A → M B) :
  keeps_attachment m → (∀ a, keeps_attachment (f a)) → keeps_attachment (m ≫= f).
Proof.
  intros Hm Hf w. unfold mbind, M_bind. specialize (Hm w).
  destruct (m w) as [[a|e] w1]; simpl in *; [|done].
  by rewrite Hf.
Qed.

Lemma keeps_catch {A} (m : M A) (handler : Js.Error → M A) :
  keeps_attachment m → (∀ e, keeps_attachment (handler e)) →
  keeps_attachment (catch m handler).
Proof.
  intros Hm Hh w. unfold catch. specialize (Hm w).
  destruct (m w) as [[a|e] w1]; simpl in *; [done|].
  by rewrite Hh.
Qed.

Lemma keeps_finally {A} (m : M A) (final : M unit) :
  keeps_attachment m → keeps_attachment final → keeps_attachment (finally m final).
Proof.
  intros Hm Hf w. unfold finally. specialize (Hm w).
  destruct (m w) as [r w1]; simpl in *. by rewrite Hf.
Qed.

Lemma keeps_unawaited (m : M unit) :
  keeps_attachment m → keeps_attachment (unawaited m).
Proof. intros Hm w. apply Hm. Qed.

Lemma keeps_if {A} (b : bool) (m1 m2 : M A) :
  keeps_attachment m1 → keeps_attachment m2 →
  keeps_attachment (if b then m1 else m2).
Proof. by destruct b. Qed.

Lemma keeps_set_expenseData o : keeps_attachment (set_expenseData o).
Proof. by intros w. Qed.
Lemma keeps_setNaturalLanguageQuery v : keeps_attachment (setNaturalLanguageQuery v).
Proof. by intros w. Qed.
Lemma keeps_setIsAiLoading v : keeps_attachment (setIsAiLoading v).
Proof. by intros w. Qed.
Lemma keeps_setAiError v : keeps_attachment (setAiError v).
Proof. by intros w. Qed.
Lemma keeps_setSubmissionStatus v : keeps_attachment (setSubmissionStatus v).
Proof. by intros w. Qed.
Lemma keeps_setSubmissionError v : keeps_attachment (setSubmissionError v).
Proof. by intros w. Qed.
Lemma keeps_setUpdatedFields o : keeps_attachment (setUpdatedFields o).
Proof. by intros w. Qed.
Lemma keeps_alloc {A} (v : A) : keeps_attachment (alloc v).
Proof. by intros w. Qed.
Lemma keeps_setTimeout callback ms : keeps_attachment (setTimeout callback ms).
Proof. by intros w. Qed.
Lemma keeps_fetch request net : keeps_attachment (fetch request net).
Proof. by intros w. Qed.

End Frame.

#[local] Hint Resolve keeps_ret keeps_throw keeps_lift keeps_get_state
  keeps_bind keeps_catch keeps_finally keeps_unawaited keeps_if
  keeps_set_expenseData keeps_setNaturalLanguageQuery keeps_setIsAiLoading
  keeps_setAiError keeps_setSubmissionStatus keeps_setSubmissionError
  keeps_setUpdatedFields keeps_alloc keeps_setTimeout keeps_fetch : frame.

Section Attachment.
Context `{!Runtime}.

Lemma keeps_setExpenseData updater : keeps_attachment (setExpenseData updater).
Proof. unfold setExpenseData. eauto 10 with frame. Qed.

Lemma keeps_handleDataChange name value :
  keeps_attachment (handleDataChange name value).
Proof. apply keeps_setExpenseData. Qed.

Lemma keeps_run_timer callback : keeps_attachment (run_timer callback).
Proof. destruct callback. unfold run_timer. eauto 10 with frame. Qed.

Lemma keeps_handleAiParseSuccess s : keeps_attachment (handleAiParseSuccess s).
Proof.
  unfold handleAiParseSuccess.
  apply keeps_if; [apply keeps_ret|].
  repeat (apply keeps_bind; [auto using keeps_setExpenseData with frame|intros ?]).
  auto with frame.
Qed.

Lemma keeps_handleNlpParse reply : keeps_attachment (handleNlpParse reply).
Proof.
  unfold handleNlpParse.
  apply keeps_bind; [auto with frame|intros ?].
  apply keeps_bind; [auto with frame|intros s].
  repeat (apply keeps_if; [auto with frame|]).
  apply keeps_bind; [auto with frame|intros ?].
  apply keeps_finally; [|auto with frame].
  apply keeps_catch; [|auto with frame].
  apply keeps_bind; [auto with frame|intros ?].
  apply keeps_handleAiParseSuccess.
Qed.

Lemma keeps_handleOcrParse dataUrl mimeType reply :
  keeps_attachment (handleOcrParse dataUrl mimeType reply).
Proof.
  unfold handleOcrParse.
  apply keeps_bind; [destruct dataUrl; auto with frame|intros base64String].
  apply keeps_if; [auto with frame|].
  do 2 (apply keeps_bind; [auto with frame|intros ?]).
  apply keeps_finally; [|auto with frame].
  apply keeps_catch; [|auto with frame].
  apply keeps_bind; [auto with frame|intros parsedData].
  apply keeps_bind; [apply keeps_handleAiParseSuccess|intros ?].
  apply keeps_if; auto with frame.
Qed.

Lemma keeps_closeModal : keeps_attachment closeModal.
Proof. apply keeps_setSubmissionStatus. Qed.

Lemma keeps_submitExpense now data receipt net :
  keeps_attachment (submitExpense now data receipt net).
Proof.
  unfold submitExpense, submitExpense_at.
  apply keeps_if; [auto with frame|].
  apply keeps_catch; auto with frame.
Qed.

Lemma resetForm_attachment w : attachment (exec resetForm w) = (None, None).
Proof. reflexivity. Qed.

Lemma removeReceipt_attachment w : attachment (exec removeReceipt w) = (None, None).
Proof. reflexivity. Qed.

Lemma handleSubmit_attachment now net w :
  attachment (exec (handleSubmit now net) w) = attachment w ∨
  attachment (exec (handleSubmit now net) w) = (None, None).
Proof.
  unfold exec. rewrite handleSubmit_run.
  destruct (field_truthy (validateForm (state w))); [by left|].
  unfold catch, mbind, M_bind.
  cbn [setSubmissionStatus setSubmissionError modify with_state state next_oid
       timers reads requests entered].
  rewrite submitExpense_run.
  destruct net as [[]|e]; [by right|by left].
Qed.

Lemma attachment_ok_iff w :
  attachment_ok (state w) ↔
  (is_Some (snd (attachment w)) ↔ is_Some (fst (attachment w))).
Proof. done. Qed.

Lemma cleared_ok w : attachment w = (None, None) → attachment_ok (state w).
Proof.
  unfold attachment, attachment_ok. intros [= -> ->].
  split; intros [? ?]; discriminate.
Qed.

Lemma keeps_attachment_ok {A} (m : M A) w :
  keeps_attachment m → attachment_ok (state w) → attachment_ok (state (exec m w)).
Proof. intros Hm. rewrite !attachment_ok_iff. unfold exec. by rewrite Hm. Qed.

Lemma handleFileChange_attachment file w :
  match file with
  | Some f =>
      if accepted f then
        attachment (exec (handleFileChange file) w) = (Some f, receiptPreview (state w)) ∧
        reads (exec (handleFileChange file) w) = f :: reads w
      else attachment (exec (handleFileChange file) w) = attachment w
  | None => attachment (exec (handleFileChange file) w) = attachment w
  end.
Proof.
  destruct file as [f|]; [|done]. unfold accepted, handleFileChange, exec.
  destruct (Str.startsWith (file_type f) "image/"); [|done].
  cbn [negb andb].
  by destruct (N.ltb (5 * 1024 * 1024) (file_size f)).
Qed.

Lemma onloadend_attachment file result reply w :
  attachment (exec (onloadend file result reply) w) = (receiptFile (state w), result).
Proof.
  unfold exec, onloadend, mbind, M_bind, unawaited.
  cbn [setReceiptPreview modify snd].
  by rewrite (keeps_handleOcrParse result (file_type file) reply).
Qed.

(** C9, as amended. Removing the attachment and resetting the form clear
    the file and the preview together, so the invariant holds after
    them. An upload that is rejected (no file, not an image, above 5 MB)
    changes neither; an accepted upload stores the file at once, leaves
    the preview as it was, and starts the read. The end of the read
    ([onloadend]) sets the preview to the result and keeps the file, so
    the invariant holds after it when the read gave a data URL and a file
    is attached. Every other handler (an edit, a merge, the text
    extraction, the highlight timer, closing the dialog) keeps both
    components, and a submission keeps them or clears both, so they
    preserve the invariant. *)
Theorem attachment_cleared_together (w : World) :
  (attachment (exec removeReceipt w) = (None, None) ∧
   attachment_ok (state (exec removeReceipt w))) ∧
  (attachment (exec resetForm w) = (None, None) ∧
   attachment_ok (state (exec resetForm w))) ∧
  (∀ file,
     match file with
     | Some f =>
         if accepted f then
           attachment (exec (handleFileChange file) w)
             = (Some f, receiptPreview (state w)) ∧
           reads (exec (handleFileChange file) w) = f :: reads w
         else attachment (exec (handleFileChange file) w) = attachment w
     | None => attachment (exec (handleFileChange file) w) = attachment w
     end) ∧
  (∀ file result reply,
     attachment (exec (onloadend file result reply) w)
       = (receiptFile (state w), result)) ∧
  (∀ file url reply,
     is_Some (receiptFile (state w)) →
     attachment_ok (state (exec (onloadend file (Some url) reply) w))) ∧
  (attachment_ok (state w) →
   (∀ name value, attachment_ok (state (exec (handleDataChange name value) w))) ∧
   (∀ s, attachment_ok (state (exec (handleAiParseSuccess s) w))) ∧
   (∀ reply, attachment_ok (state (exec (handleNlpParse reply) w))) ∧
   (∀ callback, attachment_ok (state (exec (run_timer callback) w))) ∧
   attachment_ok (state (exec closeModal w)) ∧
   (∀ now net, attachment_ok (state (exec (handleSubmit now net) w)))).
Proof.
  split_and!.
  - reflexivity.
  - apply cleared_ok, removeReceipt_attachment.
  - reflexivity.
  - apply cleared_ok, resetForm_attachment.
  - intros file. apply handleFileChange_attachment.
  - intros file result reply. apply onloadend_attachment.
  - intros file url reply Hfile. apply attachment_ok_iff.
    rewrite onloadend_attachment. by split.
  - intros Hok. split_and!; intros.
    + by apply keeps_attachment_ok; [apply keeps_handleDataChange|].
    + by apply keeps_attachment_ok; [apply keeps_handleAiParseSuccess|].
    + by apply keeps_attachment_ok; [apply keeps_handleNlpParse|].
    + by apply keeps_attachment_ok; [apply keeps_run_timer|].
    + by apply keeps_attachment_ok; [apply keeps_closeModal|].
    + apply attachment_ok_iff.
      destruct (handleSubmit_attachment now net w) as [-> | Hcleared];
        [by apply attachment_ok_iff|].
      by apply attachment_ok_iff, cleared_ok.
Qed.

End Attachment.

(** C9, the claim as stated fails. On a form without attachment, where
    the invariant holds, the upload of a 2 KB PNG leaves the file set and
    the preview unset: the invariant does not hold after the operation.
    It still does not hold after the read has ended when the read failed
    (its result is [null]). *)
Lemma upload_breaks_invariant :
  attachment (form_holding sparse_record) = (None, None) ∧
  attachment (exec (handleFileChange (Some receipt_png)) (form_holding sparse_record))
    = (Some receipt_png, None) ∧
  ¬ attachment_ok
      (state (exec (handleFileChange (Some receipt_png)) (form_holding sparse_record))) ∧
  attachment
    (exec (@onloadend (table_runtime []) receipt_png None
             (Js.Rejected (Js.mkError "unreachable")))
       (exec (handleFileChange (Some receipt_png)) (form_holding sparse_record)))
    = (Some receipt_png, None).
Proof.
  split_and!; try reflexivity.
  intros [_ Hok]. by destruct Hok as [? [=]].
Qed.

(** The amended C9 on the same upload, now with a read that succeeds:
    once [onloadend] has delivered the data URL, the invariant holds. *)
Lemma upload_then_read_restores_invariant :
  attachment_ok
    (state (exec (@onloadend (table_runtime []) receipt_png
                    (Some "data:image/png;base64,iVBORw0KGgo=")
                    (Js.Rejected (Js.mkError "The AI service is offline")))
              (exec (handleFileChange (Some receipt_png))
                    (form_holding sparse_record)))).
Proof.
  apply (proj1 (proj2 (proj2 (proj2 (proj2
    (@attachment_cleared_together (table_runtime [])
       (exec (handleFileChange (Some receipt_png)) (form_holding sparse_record)))))))).
  by eexists.
Defined.

(** ** The theorems at the examples of the specification *)

(** C3 at the record with amount 600 and no attachment: invalid, and the
    message names the receipt. *)
Lemma taxi_600_needs_receipt :
  validation_errors (taxi_record 600) None = ["Upload Receipt"] ∧
  validateForm (state (form_holding (taxi_record 600)))
    = Some "Please complete all required fields: Upload Receipt.".
Proof.
  apply (proj1 (proj2
    (receipt_required_above_500 (state (form_holding (taxi_record 600)))))).
  - by repeat split.
  - reflexivity.
  - reflexivity.
Defined.

(** C4 at the response with the category ["Unknown"]: the call returns,
    the category is absent, and the fields that pass their tests are
    there. *)
Lemma unknown_category_is_partial_success :
  ∃ s,
    @parseJsonResponse unknown_category_runtime unknown_category_response = Js.Ok s ∧
    p_expenseCategory s = valid_category (Some (Js.Str "Unknown")) ∧
    p_project s = None ∧
    p_expenseTitle s = None ∧
    p_expenseDate s = date_part "2024-07-10T00:00:00Z" ∧
    p_currency s = Some (Str.toUpperCase "inr") ∧
    p_amount s = Some (AmountNumber (Js.of_Z 12)) ∧
    p_comment s = None ∧
    p_employeeName s = None ∧ p_employeeId s = None.
Proof.
  apply (proj1 (@parseJsonResponse_partial_success unknown_category_runtime
                  unknown_category_response)
           ("```json" +:+ unknown_category_text +:+ "```")
           unknown_category_value).
  - reflexivity.
  - vm_compute. reflexivity.
  - discriminate.
Defined.

(** C8 at the form of the specification's example, which lacks four
    fields: nothing is sent and the state becomes [ERROR] with the
    validation message. *)
Lemma sparse_form_is_not_sent :
  let w := form_holding sparse_record in
  let w' := exec (@handleSubmit (table_runtime []) "2024-07-10T10:00:00.000Z"
                    (Js.Fulfilled tt)) w in
  requests w' = requests w ∧
  submissionStatus (state w') = ERROR ∧
  submissionError (state w') = validateForm (state w) ∧
  entered w' = ERROR :: entered w.
Proof.
  apply (proj1 (@handleSubmit_validates_first (table_runtime [])
                  "2024-07-10T10:00:00.000Z" (Js.Fulfilled tt)
                  (form_holding sparse_record))).
  discriminate.
Defined.

(** C1 at a suggestion of a title, an amount and an employee name, merged
    into the record of the specification's example: the title and the
    amount are those of the suggestion, the employee is the one of the
    record, and the other fields are as before. *)
Lemma employee_name_is_not_merged :
  let r' := oval (expenseData (state
              (exec (handleAiParseSuccess taxi_suggestion)
                    (form_holding sparse_record)))) in
  employeeName r' = "Snehal Papnoi" ∧
  employeeId r' = "snehalpapnoi9@gmail.com" ∧
  expenseCategory r' = "" ∧
  project r' = "" ∧
  expenseTitle r' = "Taxi" ∧
  expenseDate r' = "2024-07-10" ∧
  currency r' = "INR" ∧
  amount r' = AmountNumber (Js.of_Z 640) ∧
  comment r' = "".
Proof.
  apply (merge_protects_employee (form_holding sparse_record) taxi_suggestion).
Defined.

(** C2 at the record of the specification's example: the amount zero is
    not reported, the empty comment is. *)
Lemma zero_is_an_amount :
  ("Amount" ∉ validation_errors sparse_record None) ∧
  ("Comment" ∈ validation_errors sparse_record None).
Proof.
  pose proof (validateForm_collects_all (state (form_holding sparse_record)))
    as (_ & _ & _ & _ & _ & Hcomment & _ & Hzero & _).
  split.
  - apply Hzero. reflexivity.
  - apply Hcomment. reflexivity.
Defined.

(** The example of the specification for the date: the time of day of an
    ISO timestamp is cut off. *)
Lemma iso_timestamp_cut : date_part "2024-07-10T00:00:00Z" = Some "2024-07-10".
Proof. reflexivity. Qed.

(** * Further properties of the code *)

(** ** Programs that keep a property of the world *)

Section Preserves.
Context (P : World → Prop).

Lemma preserves_ret {A} (a : A) : preserves P (mret a).
Proof. by intros w. Qed.

Lemma preserves_throw {A} e : preserves P (@throw A e).
Proof. by intros w. Qed.

Lemma preserves_lift {A} (r : Js.Result A) : preserves P (lift r).
Proof. by intros w. Qed.

Lemma preserves_get_state : preserves P get_state.
Proof. by intros w. Qed.

Lemma preserves_bind {A B} (m : M A) (f : A → M B) :
  preserves P m → (∀ a, preserves P (f a)) → preserves P (m ≫= f).
Proof.
  intros Hm Hf w Hw. unfold mbind, M_bind. specialize (Hm w Hw).
  destruct (m w) as [[a|e] w1]; simpl in *; [|done]. by apply Hf.
Qed.

(** After a pure computation only its result, if any, goes on. *)
Lemma preserves_bind_lift {A B} (r : Js.Result A) (f : A → M B) :
  (∀ a, r = Js.Ok a → preserves P (f a)) → preserves P (lift r ≫= f).
Proof.
  intros Hf w Hw. unfold mbind, M_bind, lift.
  destruct r as [a|e]; simpl; [|done]. by apply (Hf a).
Qed.

(** After reading the state the program goes on with that state. *)
Lemma preserves_bind_get {B} (f : AppState → M B) :
  (∀ w, P w → P (snd (f (state w) w))) → preserves P (get_state ≫= f).
Proof. intros Hf w Hw. by apply Hf. Qed.

Lemma preserves_catch {A} (m : M A) (handler : Js.Error → M A) :
  preserves P m → (∀ e, preserves P (handler e)) → preserves P (catch m handler).
Proof.
  intros Hm Hh w Hw. unfold catch. specialize (Hm w Hw).
  destruct (m w) as [[a|e] w1]; simpl in *; [done|]. by apply Hh.
Qed.

Lemma preserves_finally {A} (m : M A) (final : M unit) :
  preserves P m → preserves P final → preserves P (finally m final).
Proof.
  intros Hm Hf w Hw. unfold finally. specialize (Hm w Hw).
  destruct (m w) as [r w1]; simpl in *. by apply Hf.
Qed.

Lemma preserves_unawaited (m : M unit) : preserves P m → preserves P (unawaited m).
Proof. intros Hm w Hw. by apply Hm. Qed.

Lemma preserves_if {A} (b : bool) (m1 m2 : M A) :
  preserves P m1 → preserves P m2 → preserves P (if b then m1 else m2).
Proof. by destruct b. Qed.

Lemma preserves_modify (f : World → World) :
  (∀ w, P w → P (f w)) → preserves P (modify f).
Proof. intros Hf w Hw. by apply Hf. Qed.

End Preserves.

(** ** The extraction service, further *)

Section Reversal.

Lemma string_app_cons c (s1 s2 : string) : String c s1 +:+ s2 = String c (s1 +:+ s2).
Proof. reflexivity. Qed.

Lemma string_app_assoc (s1 s2 s3 : string) : (s1 +:+ s2) +:+ s3 = s1 +:+ (s2 +:+ s3).
Proof.
  induction s1 as [|c s1 IH]; [done|]. by rewrite !string_app_cons, IH.
Qed.

Lemma string_app_nil_r (s : string) : s +:+ "" = s.
Proof. induction s as [|c s IH]; [done|]. by rewrite string_app_cons, IH. Qed.

Lemma rev_app_spec s1 s2 : String.rev_app s1 s2 = String.rev s1 +:+ s2.
Proof.
  unfold String.rev. revert s2.
  induction s1 as [|c s1 IH]; intros s2; simpl; [done|].
  rewrite (IH (String c s2)), (IH (String c "")).
  by rewrite string_app_assoc.
Qed.

Lemma rev_cons c s : String.rev (String c s) = String.rev s +:+ String c "".
Proof. unfold String.rev at 1. simpl. apply rev_app_spec. Qed.

Lemma rev_app_distr s1 s2 : String.rev (s1 +:+ s2) = String.rev s2 +:+ String.rev s1.
Proof.
  induction s1 as [|c s1 IH].
  - by rewrite string_app_nil_r.
  - by rewrite string_app_cons, !rev_cons, IH, string_app_assoc.
Qed.

Lemma rev_involutive s : String.rev (String.rev s) = s.
Proof.
  induction s as [|c s IH]; [done|].
  by rewrite rev_cons, rev_app_distr, IH.
Qed.

Lemma trimStart_spaces ws rest :
  Str.all Str.is_space ws = true → Str.trimStart (ws +:+ rest) = Str.trimStart rest.
Proof.
  induction ws as [|c ws IH]; [done|].
  rewrite string_app_cons. simpl.
  intros [Hc Hws]%andb_prop. rewrite Hc. by apply IH.
Qed.

End Reversal.
Section Fence.

Lemma prefix_app p x : String.prefix p (p +:+ x) = true.
Proof.
  induction p as [|c p IH]; [by destruct x|].
  rewrite string_app_cons. simpl. destruct (Ascii.ascii_dec c c); [apply IH|done].
Qed.

Lemma drop_app p x : Str.drop (String.length p) (p +:+ x) = x.
Proof. induction p as [|c p IH]; [by destruct x|]. apply IH. Qed.

Lemma endsWith_app x p : Str.endsWith (x +:+ p) p = true.
Proof. unfold Str.endsWith. rewrite rev_app_distr. apply prefix_app. Qed.

Lemma length_app (s1 s2 : string) :
  String.length (s1 +:+ s2) = String.length s1 + String.length s2.
Proof.
  induction s1 as [|c s1 IH]; [done|]. rewrite string_app_cons. simpl. by rewrite IH.
Qed.

Lemma rev_length s : String.length (String.rev s) = String.length s.
Proof.
  induction s as [|c s IH]; [done|].
  rewrite rev_cons, length_app, IH. simpl. lia.
Qed.

Lemma dropEnd_app x p : Str.dropEnd (String.length p) (x +:+ p) = x.
Proof.
  unfold Str.dropEnd.
  by rewrite rev_app_distr, <- (rev_length p), drop_app, rev_involutive.
Qed.

Lemma trimStart_solid s : no_leading_space s = true → Str.trimStart s = s.
Proof. destruct s as [|c s]; [done|]. simpl. by intros ->%negb_true_iff. Qed.

Lemma no_leading_space_app s p :
  no_leading_space s = true → no_leading_space p = true →
  no_leading_space (s +:+ p) = true.
Proof. by destruct s. Qed.

(** X1. A Markdown fence around the answer is taken off: for a body that
    does not begin with white space, the text made of the opening fence
    with its tag, any white space, the body and the closing fence is
    reduced to the body, whatever the body contains. A text that ends
    with the closing fence and does not begin with the tagged opening
    fence loses the closing fence only: an untagged fence keeps its
    opening back quotes. *)
Theorem fenced_body_is_unwrapped (ws body : string) :
  Str.all Str.is_space ws = true →
  no_leading_space body = true →
  strip_fence ("```json" +:+ ws +:+ body +:+ "```") = body ∧
  (Str.startsWith (body +:+ "```") "```json" = false →
   strip_fence (body +:+ "```") = body).
Proof.
  intros Hws Hbody. split.
  - unfold strip_fence, Str.startsWith. rewrite prefix_app.
    rewrite (drop_app "```json"), trimStart_spaces by done.
    rewrite trimStart_solid by (by apply no_leading_space_app).
    rewrite endsWith_app. apply (dropEnd_app body "```").
  - intros Hplain. unfold strip_fence. rewrite Hplain, endsWith_app.
    apply (dropEnd_app body "```").
Qed.

End Fence.

(** X1 at the answer [{"amount":12}] fenced with a line break after the
    tag, and at the same answer in an untagged fence. *)
Lemma fenced_amount_is_unwrapped :
  strip_fence ("```json" +:+ String "010" EmptyString +:+ amount_body +:+ "```")
    = amount_body ∧
  strip_fence (("```" +:+ amount_body) +:+ "```") = "```" +:+ amount_body.
Proof.
  split.
  - apply (fenced_body_is_unwrapped (String "010" EmptyString) amount_body);
      reflexivity.
  - apply (fenced_body_is_unwrapped (String "010" EmptyString) ("```" +:+ amount_body));
      reflexivity.
Defined.

Lemma elem_of_key_if {A} x k (field : option A) :
  x ∈ key_if k field ↔ is_Some field ∧ x = k.
Proof.
  destruct field; simpl.
  - rewrite list_elem_of_singleton. split; [by split; [eexists|]|by intros [_ ?]].
  - rewrite elem_of_nil. split; [done|]. by intros [[? ?] _].
Qed.

Section ExtractionCalls.
Context `{!Runtime}.

(** X2. Whatever goes wrong in an extraction call, the caller sees one
    fixed error per call: a rejected remote call and an answer that
    [parseJsonResponse] refuses both end in the "service may be
    unavailable" error, so neither the remote error nor the "Could not
    understand" error of [parseJsonResponse] ever leaves the service. A
    call succeeds exactly when the remote call is fulfilled with a
    response that [parseJsonResponse] accepts, and returns its
    suggestion. *)
Theorem extraction_failure_is_masked (description base64Image mimeType : string)
    (reply : Js.Settled GenerateContentResponse) :
  (∀ e, parseTextFromNaturalLanguage description reply = Js.Throw e →
        e = nlp_unavailable) ∧
  (∀ e, parseReceiptFromImage base64Image mimeType reply = Js.Throw e →
        e = ocr_unavailable) ∧
  (∀ s, parseTextFromNaturalLanguage description reply = Js.Ok s ↔
        ∃ response, reply = Js.Fulfilled response ∧
                    parseJsonResponse response = Js.Ok s) ∧
  (∀ s, parseReceiptFromImage base64Image mimeType reply = Js.Ok s ↔
        ∃ response, reply = Js.Fulfilled response ∧
                    parseJsonResponse response = Js.Ok s) ∧
  (∀ e, reply = Js.Rejected e →
        parseTextFromNaturalLanguage description reply = Js.Throw nlp_unavailable ∧
        parseReceiptFromImage base64Image mimeType reply = Js.Throw ocr_unavailable).
Proof.
  unfold parseTextFromNaturalLanguage, parseReceiptFromImage.
  destruct reply as [response|e0]; cbn [await mbind Result_bind try_catch].
  - destruct (parseJsonResponse response) as [s0|e1] eqn:Hparse; cbn [try_catch].
    + split_and!; try done.
      * intros s. split.
        -- intros [= <-]. by exists response.
        -- intros (r & [= <-] & Hr). congruence.
      * intros s. split.
        -- intros [= <-]. by exists response.
        -- intros (r & [= <-] & Hr). congruence.
    + split_and!; try done.
      * by intros e [= <-].
      * by intros e [= <-].
      * intros s. split; [done|]. intros (r & [= <-] & Hr). congruence.
      * intros s. split; [done|]. intros (r & [= <-] & Hr). congruence.
  - split_and!; try done.
    + by intros e [= <-].
    + by intros e [= <-].
    + intros s. split; [done|]. by intros (r & ? & _).
    + intros s. split; [done|]. by intros (r & ? & _).
Qed.

(** A value is accepted with exactly the fields it passes. *)
Lemma parseJsonResponse_accepts response t v :
  text response = Some t →
  JSON_parse (strip_fence (Str.trim t)) = Some v →
  v ≠ Js.Null →
  parseJsonResponse response = Js.Ok
    {| p_expenseCategory := valid_category (prop v "expenseCategory");
       p_project := Js.as_string (prop v "project");
       p_expenseTitle := Js.as_string (prop v "expenseTitle");
       p_expenseDate := Js.as_string (prop v "expenseDate") ≫= date_part;
       p_currency := Str.toUpperCase <$> Js.as_string (prop v "currency");
       p_amount := AmountNumber <$> Js.as_number (prop v "amount");
       p_comment := Js.as_string (prop v "comment");
       p_employeeName := None;
       p_employeeId := None |}.
Proof.
  intros Ht Hparse Hv. rewrite parseJsonResponse_cases, Ht, Hparse.
  rewrite <- (sanitize_ok v Hv). by destruct v.
Qed.

(** X3. An answer that is JSON but holds none of the seven fields gives
    the empty suggestion and no error: so does a number, a string, a
    boolean or an array, and so does an object with other keys only. *)
Theorem unrelated_answer_gives_empty_suggestion (response : GenerateContentResponse)
    (t : string) (v : Js.value) :
  text response = Some t →
  JSON_parse (strip_fence (Str.trim t)) = Some v →
  v ≠ Js.Null →
  (∀ k, k ∈ control_names → prop v k = None) →
  parseJsonResponse response = Js.Ok empty_partial ∧
  Object_keys empty_partial = [].
Proof.
  intros Ht Hparse Hv Hnone.
  rewrite (parseJsonResponse_accepts response t v Ht Hparse Hv).
  unfold control_names in Hnone.
  rewrite !Hnone; [done|set_solver..].
Qed.

(** X4. A suggestion that the service returns is well formed: its
    category is one of the four of the enumeration, its date has no
    ['T'], its currency has no lower-case letter, its amount is a number
    and never the empty amount, it has no employee field, and so all its
    keys are names of controls of the form. *)
Theorem suggestion_in_domain (response : GenerateContentResponse)
    (s : PartialExpenseData) :
  parseJsonResponse response = Js.Ok s →
  (∀ c, p_expenseCategory s = Some c → c ∈ EXPENSE_CATEGORIES) ∧
  (∀ d, p_expenseDate s = Some d → Str.mem "T" d = false) ∧
  (∀ c, p_currency s = Some c →
        Str.all (λ x, negb (Str.is_lower x)) c = true) ∧
  (∀ a, p_amount s = Some a → ∃ n, a = AmountNumber n) ∧
  p_employeeName s = None ∧ p_employeeId s = None ∧
  Object_keys s ⊆ control_names ∧
  Object_keys (rest_without_employee s) = Object_keys s.
Proof.
  intros Hs.
  destruct (parseJsonResponse_domain response s Hs) as (Hc & Hd & Hu & Hn & Hi).
  assert (∀ a, p_amount s = Some a → ∃ n, a = AmountNumber n) as Ha.
  { revert Hs. rewrite parseJsonResponse_cases.
    destruct (text response) as [t|]; [|done].
    destruct (JSON_parse (strip_fence (Str.trim t))) as [v|]; [|done].
    destruct (null_or_not v) as [->|Hv]; [done|].
    intros Hs. assert (sanitize v = Js.Ok s) as Hs' by (by destruct v).
    rewrite (sanitize_ok v Hv) in Hs'. injection Hs' as <-. simpl.
    intros a. destruct (Js.as_number (prop v "amount")); simpl; [|done].
    intros [= <-]. by eexists. }
  split_and!; try done.
  - intros k. unfold Object_keys, control_names.
    rewrite Hn, Hi, !elem_of_app, !elem_of_key_if, !elem_of_cons.
    intros [[_ ->]|[[_ ->]|[[_ ->]|[[_ ->]|[[_ ->]|[[_ ->]|[[_ ->]|[[[? ?] _]|[[? ?] _]]]]]]]]];
      try done; tauto.
  - destruct s; simpl in *. by subst.
Qed.

End ExtractionCalls.

(** X3 at the answer [42]. *)
Lemma number_answer_gives_empty_suggestion :
  @parseJsonResponse number_runtime (mkResponse (Some "42")) = Js.Ok empty_partial ∧
  Object_keys empty_partial = [].
Proof.
  apply (@unrelated_answer_gives_empty_suggestion number_runtime
           (mkResponse (Some "42")) "42" (Js.Num (Js.of_Z 42))).
  - reflexivity.
  - reflexivity.
  - discriminate.
  - reflexivity.
Defined.

(** X4 at the answer with the category ["Unknown"]. *)
Lemma unknown_category_suggestion_in_domain :
  let s := mkPartial None None None (Some "2024-07-10") (Some "INR")
                     (Some (AmountNumber (Js.of_Z 12))) None None None in
  Object_keys s ⊆ control_names ∧
  Object_keys (rest_without_employee s) = Object_keys s.
Proof.
  pose proof (@suggestion_in_domain unknown_category_runtime
                unknown_category_response _ unknown_category_dropped)
    as (_ & _ & _ & _ & _ & _ & Hkeys & Hrest).
  by split.
Defined.

(** ** The validator, further *)

Section ValidatorFurther.

Lemma report_nil failed name : report failed name = [] ↔ failed = false.
Proof. by destruct failed. Qed.

Lemma string_truthy_false s : negb (Js.string_truthy s) = false ↔ s ≠ "".
Proof. by destruct s. Qed.

(** X5. The form is valid, i.e. [validateForm] returns no message,
    exactly when the five required texts are not empty, the amount is a
    number (zero, [NaN] and the infinities included) and, if the amount
    is above 500, a file is attached. *)
Theorem valid_form_characterised (s : AppState) :
  validateForm s = None ↔
  texts_filled (oval (expenseData s)) ∧
  (∃ n, amount (oval (expenseData s)) = AmountNumber n) ∧
  (exceeds_500 (amount (oval (expenseData s))) → is_Some (receiptFile s)).
Proof.
  rewrite validateForm_none, validation_errors_reports.
  rewrite !app_nil, !report_nil, !string_truthy_false.
  rewrite andb_false_iff.
  rewrite <- (not_true_iff_false (Js.gt _ _)), gt_500_spec.
  rewrite negb_false_iff, bool_decide_eq_true.
  unfold texts_filled. split.
  - intros (Hc & Hp & Ht & Hd & Ha & Hm & Hr). split_and!; try done.
    + destruct (amount _); [done|by eexists].
    + intros Hbig. by destruct Hr.
  - intros ((Hc & Hp & Ht & Hd & Hm) & [n Ha] & Hr). split_and!; try done.
    + by rewrite Ha.
    + destruct (receiptFile s); [right; by eexists|left].
      intros Hbig. by destruct (Hr Hbig).
Qed.

End ValidatorFurther.

(** ** Submission, further *)

Section SubmissionFurther.
Context `{!Runtime}.

(** The world that [handleSubmit] leaves on a valid form. *)
Lemma handleSubmit_exec_valid now net w :
  validateForm (state w) = None →
  exec (handleSubmit now net) w =
    let st := state w in
    let request :=
      mkRequest N8N_WEBHOOK_URL "POST"
        (build_formData now (oval (expenseData st)) (receiptFile st)) "no-cors" in
    match net with
    | Js.Fulfilled _ =>
        mkWorld
          (mkAppState emptyExpenseState None None "" (isAiLoading st) None
                      SUCCESS None (updatedFields st))
          (next_oid w) (timers w) (reads w) (request :: requests w)
          (SUCCESS :: SUBMITTING :: entered w)
    | Js.Rejected _ =>
        mkWorld
          (mkAppState (expenseData st) (receiptFile st) (receiptPreview st)
                      (naturalLanguageQuery st) (isAiLoading st) (aiError st)
                      ERROR (Some (Js.message could_not_submit)) (updatedFields st))
          (next_oid w) (timers w) (reads w) (request :: requests w)
          (ERROR :: SUBMITTING :: entered w)
    end.
Proof.
  intros Hvalid. unfold exec. rewrite handleSubmit_run, Hvalid.
  cbn [field_truthy]. unfold catch, mbind, M_bind.
  cbn [setSubmissionStatus setSubmissionError modify with_state state next_oid
       timers reads requests entered].
  rewrite submitExpense_run. by destruct net as [[]|e].
Qed.

(** The world that [handleSubmit] leaves on an invalid form. *)
Lemma handleSubmit_exec_invalid now net w message :
  validateForm (state w) = Some message →
  exec (handleSubmit now net) w =
    let st := state w in
    mkWorld
      (mkAppState (expenseData st) (receiptFile st) (receiptPreview st)
                  (naturalLanguageQuery st) (isAiLoading st) (aiError st)
                  ERROR (Some message) (updatedFields st))
      (next_oid w) (timers w) (reads w) (requests w) (ERROR :: entered w).
Proof.
  intros Hvalid. unfold exec. rewrite handleSubmit_run.
  rewrite validateForm_message_truthy by (by rewrite Hvalid).
  by rewrite Hvalid.
Qed.

(** The empty form is never valid, whatever the day. *)
Lemma empty_form_invalid (st : AppState) :
  expenseData st = emptyExpenseState → ∃ message, validateForm st = Some message.
Proof.
  intros Hempty. unfold validateForm. rewrite Hempty, validation_errors_reports.
  by eexists.
Qed.

Lemma payload_keys_spec now data receipt :
  (build_formData now data receipt).*1 = payload_keys receipt.
Proof. by destruct receipt. Qed.

(** X6. A submission of a valid form sends exactly one request, whatever
    the network does afterwards: a [POST] in [no-cors] mode to the
    webhook of [constants.ts]. Its body has the nine fields of the record
    as it was when the form was submitted, then the time stamp, then the
    file under [receipt] exactly when one is attached, then the status
    ["Submitted"]; no key occurs twice. *)
Theorem valid_submit_sends_one_request (now : string) (net : Js.Settled unit)
    (w : World) :
  validateForm (state w) = None →
  ∃ request,
    requests (exec (handleSubmit now net) w) = request :: requests w ∧
    req_url request = N8N_WEBHOOK_URL ∧
    req_method request = "POST" ∧
    req_mode request = "no-cors" ∧
    req_body request
      = build_formData now (oval (expenseData (state w))) (receiptFile (state w)) ∧
    (req_body request).*1 = payload_keys (receiptFile (state w)) ∧
    NoDup (req_body request).*1 ∧
    ("timestamp", FormString now) ∈ req_body request ∧
    ("status", FormString "Submitted") ∈ req_body request ∧
    ("employeeName", FormString (employeeName (oval (expenseData (state w)))))
      ∈ req_body request ∧
    (∀ file name, ("receipt", FormBlob file name) ∈ req_body request ↔
                  receiptFile (state w) = Some file ∧ name = file_name file).
Proof.
  intros Hvalid. rewrite (handleSubmit_exec_valid now net w Hvalid).
  eexists. split; [by destruct net|]. cbn [req_url req_method req_mode req_body].
  split_and!; try done.
  - apply payload_keys_spec.
  - rewrite payload_keys_spec. destruct (receiptFile (state w)); by compute_done.
  - unfold build_formData. set_solver.
  - unfold build_formData. set_solver.
  - unfold build_formData, entries. set_solver.
  - intros file name. unfold build_formData, entries.
    destruct (receiptFile (state w)) as [f|]; set_solver.
Qed.

End SubmissionFurther.

Section SubmissionOutcome.
Context `{!Runtime}.

(** X7. When a valid form is submitted and the request leaves without a
    transport error, the form is reset: the record is the constant
    [emptyExpenseState] again, the attachment, the description and the AI
    error are cleared, the state is [SUCCESS] with no error text; the
    highlights and the loading flag are left alone. The form that is left
    is invalid, so submitting again at once sends nothing more. *)
Theorem successful_submit_resets_form (now later : string) (net : Js.Settled unit)
    (w : World) :
  validateForm (state w) = None →
  let w1 := exec (handleSubmit now (Js.Fulfilled tt)) w in
  let w2 := exec (handleSubmit later net) w1 in
  expenseData (state w1) = emptyExpenseState ∧
  attachment w1 = (None, None) ∧
  naturalLanguageQuery (state w1) = "" ∧
  aiError (state w1) = None ∧
  submissionStatus (state w1) = SUCCESS ∧
  submissionError (state w1) = None ∧
  updatedFields (state w1) = updatedFields (state w) ∧
  isAiLoading (state w1) = isAiLoading (state w) ∧
  length (requests w1) = S (length (requests w)) ∧
  requests w2 = requests w1 ∧
  submissionStatus (state w2) = ERROR.
Proof.
  intros Hvalid w1 w2.
  assert (expenseData (state w1) = emptyExpenseState) as Hempty.
  { subst w1. by rewrite (handleSubmit_exec_valid now _ w Hvalid). }
  destruct (empty_form_invalid _ Hempty) as [message Hinvalid].
  subst w2. rewrite (handleSubmit_exec_invalid later net w1 message Hinvalid).
  subst w1. rewrite (handleSubmit_exec_valid now _ w Hvalid). cbn.
  by split_and!.
Qed.

(** X8. When the transport fails, the form keeps what the user entered:
    the record is the very same object, the attachment, the description
    and the highlights stay, the state is [ERROR], and the text shown is
    the fixed "Could not submit" message, not the error of the network.
    The request had been dispatched all the same. *)
Theorem failed_submit_keeps_form (now : string) (e : Js.Error) (w : World) :
  validateForm (state w) = None →
  let w1 := exec (handleSubmit now (Js.Rejected e)) w in
  expenseData (state w1) = expenseData (state w) ∧
  attachment w1 = attachment w ∧
  naturalLanguageQuery (state w1) = naturalLanguageQuery (state w) ∧
  updatedFields (state w1) = updatedFields (state w) ∧
  submissionStatus (state w1) = ERROR ∧
  submissionError (state w1) = Some (Js.message could_not_submit) ∧
  length (requests w1) = S (length (requests w)) ∧
  validateForm (state w1) = None.
Proof.
  intros Hvalid w1. subst w1.
  rewrite (handleSubmit_exec_valid now _ w Hvalid). cbn zeta iota.
  split_and!; try done.
Qed.

End SubmissionOutcome.

(** X6 at the record with amount 600 and its receipt attached. *)
Lemma taxi_with_receipt_is_sent_once :
  ∃ request,
    requests (exec (@handleSubmit (table_runtime []) "2024-07-10T10:00:00.000Z"
                      (Js.Rejected (Js.mkError "Failed to fetch")))
                   (form_with_receipt (taxi_record 600) receipt_png "data:image/png;base64,AA=="))
      = [request] ∧
    req_url request = N8N_WEBHOOK_URL ∧
    (req_body request).*1 = payload_keys (Some receipt_png).
Proof.
  destruct (@valid_submit_sends_one_request (table_runtime [])
              "2024-07-10T10:00:00.000Z" (Js.Rejected (Js.mkError "Failed to fetch"))
              (form_with_receipt (taxi_record 600) receipt_png "data:image/png;base64,AA==")
              eq_refl)
    as (request & Hsent & Hurl & _ & _ & _ & Hkeys & _).
  by exists request.
Defined.

(** X7 at the same form. *)
Lemma taxi_form_is_reset_after_success :
  let w1 := exec (@handleSubmit (table_runtime []) "2024-07-10T10:00:00.000Z"
                    (Js.Fulfilled tt))
                 (form_with_receipt (taxi_record 600) receipt_png
                                    "data:image/png;base64,AA==") in
  expenseData (state w1) = @emptyExpenseState (table_runtime []) ∧
  attachment w1 = (None, None) ∧
  submissionStatus (state w1) = SUCCESS.
Proof.
  pose proof (@successful_submit_resets_form (table_runtime [])
                "2024-07-10T10:00:00.000Z" "2024-07-10T10:00:05.000Z"
                (Js.Fulfilled tt)
                (form_with_receipt (taxi_record 600) receipt_png
                                   "data:image/png;base64,AA==")
                eq_refl)
    as (Hrecord & Hattachment & _ & _ & Hstatus & _).
  by split_and!.
Defined.

(** X8 at the same form. *)
Lemma taxi_form_is_kept_after_failure :
  let w := form_with_receipt (taxi_record 600) receipt_png
                             "data:image/png;base64,AA==" in
  let w1 := exec (@handleSubmit (table_runtime []) "2024-07-10T10:00:00.000Z"
                    (Js.Rejected (Js.mkError "Failed to fetch"))) w in
  expenseData (state w1) = expenseData (state w) ∧
  attachment w1 = attachment w ∧
  submissionError (state w1) = Some (Js.message could_not_submit).
Proof.
  pose proof (@failed_submit_keeps_form (table_runtime [])
                "2024-07-10T10:00:00.000Z" (Js.mkError "Failed to fetch")
                (form_with_receipt (taxi_record 600) receipt_png
                                   "data:image/png;base64,AA==")
                eq_refl)
    as (Hrecord & Hattachment & _ & _ & _ & Herror & _).
  by split_and!.
Defined.

(** ** The merge and the highlights, further *)

Section Highlights.

(** The keys that are merged are the keys of the suggestion but the two
    of the employee. *)
Lemma elem_of_rest_keys k s :
  k ∈ Object_keys (rest_without_employee s) ↔
  k ∈ Object_keys s ∧ k ≠ "employeeName" ∧ k ≠ "employeeId".
Proof.
  unfold Object_keys, rest_without_employee.
  cbn [p_expenseCategory p_project p_expenseTitle p_expenseDate p_currency
       p_amount p_comment p_employeeName p_employeeId].
  rewrite !elem_of_app, !elem_of_key_if.
  assert (¬ is_Some (@None string)) as Hnone by (by intros [? ?]).
  split.
  - intros [[? ->]|[[? ->]|[[? ->]|[[? ->]|[[? ->]|[[? ->]|[[? ->]|[[? _]|[? _]]]]]]]]];
      try done; (split; [tauto|by split]).
  - intros ([H|[H|[H|[H|[H|[H|[H|[[_ ->]|[_ ->]]]]]]]]] & Hn & Hi); tauto.
Qed.

(** X9. A merge of a suggestion with at least one key highlights exactly
    the keys it applies: the keys of the suggestion without
    [employeeName] and [employeeId], replacing whatever was highlighted
    before; it sets one timer of 2500 ms. When the timer fires the
    highlights are emptied and the record, as merged, stays. *)
Theorem merge_highlights_applied_keys (w : World) (s : PartialExpenseData) :
  Object_keys s ≠ [] →
  let w1 := exec (handleAiParseSuccess s) w in
  let w2 := exec (run_timer ClearUpdatedFields) w1 in
  (∀ k, k ∈ oval (updatedFields (state w1)) ↔
        k ∈ Object_keys s ∧ k ≠ "employeeName" ∧ k ≠ "employeeId") ∧
  timers w1 = (ClearUpdatedFields, 2500%Z) :: timers w ∧
  oval (expenseData (state w1))
    = spread (oval (expenseData (state w))) (rest_without_employee s) ∧
  oval (updatedFields (state w2)) = ∅ ∧
  expenseData (state w2) = expenseData (state w1).
Proof.
  intros Hkeys w1 w2. subst w2 w1. rewrite handleAiParseSuccess_exec.
  destruct (Nat.eqb (length (Object_keys s)) 0) eqn:Hlen.
  { apply Nat.eqb_eq, length_zero_iff_nil in Hlen. done. }
  cbn. split_and!; try done.
  intros k. by rewrite elem_of_list_to_set, elem_of_rest_keys.
Qed.

End Highlights.

(** X9 at the suggestion of an amount of zero in rupees: the amount is
    highlighted, the employee name is not. *)
Lemma zero_amount_suggestion_highlights :
  let w1 := exec (handleAiParseSuccess zero_amount) (form_holding sparse_record) in
  ("amount" ∈ oval (updatedFields (state w1))) ∧
  ("employeeName" ∉ oval (updatedFields (state w1))) ∧
  timers w1 = [(ClearUpdatedFields, 2500%Z)].
Proof.
  pose proof (merge_highlights_applied_keys (form_holding sparse_record)
                zero_amount)
    as Hmerge.
  destruct Hmerge as (Hin & Htimers & _); [discriminate|].
  split_and!.
  - apply Hin. split; [|by split]. vm_compute. set_solver.
  - intros Hemp. apply Hin in Hemp as (_ & Hne & _). by apply Hne.
  - exact Htimers.
Defined.

(** ** What the handlers never touch *)

(** Decomposes a handler along its binds, branches and handlers; [leaf]
    closes what is left. *)
Ltac preserve leaf :=
  repeat first
    [ lazymatch goal with
      | |- preserves _ (mret _) => apply preserves_ret
      | |- preserves _ (throw _) => apply preserves_throw
      | |- preserves _ (lift _) => apply preserves_lift
      | |- preserves _ get_state => apply preserves_get_state
      | |- preserves _ (if _ then _ else _) => apply preserves_if
      | |- preserves _ (finally _ _) => apply preserves_finally
      | |- preserves _ (catch _ _) => apply preserves_catch
      | |- preserves _ (unawaited _) => apply preserves_unawaited
      | |- preserves _ (_ ≫= _) => apply preserves_bind; [|intros ?; cbn beta zeta]
      | |- preserves _ (let _ := _ in _) => cbn beta zeta
      | |- ∀ _, preserves _ _ => intros ?; cbn beta zeta
      end
    | leaf ].

(** A state setter that leaves the cells of the property alone. *)
Ltac untouched := solve [ intros ? Hw; exact Hw ].

Section Employee.
Context `{!Runtime}.

Lemma employee_setExpenseData updater :
  (∀ r, employeeName (updater r) = employeeName r ∧
        employeeId (updater r) = employeeId r) →
  preserves default_employee (setExpenseData updater).
Proof.
  intros Hup w [Hn Hi]. unfold default_employee in *.
  unfold setExpenseData, mbind, M_bind. cbn.
  destruct (Hup (oval (expenseData (state w)))) as [-> ->]. by split.
Qed.

Lemma employee_handleAiParseSuccess s :
  preserves default_employee (handleAiParseSuccess s).
Proof.
  unfold handleAiParseSuccess.
  preserve ltac:(first [untouched | apply employee_setExpenseData; by intros []]).
Qed.

Lemma employee_resetForm : preserves default_employee resetForm.
Proof. by intros w _. Qed.

Lemma employee_submitExpense now data receipt net :
  preserves default_employee (submitExpense now data receipt net).
Proof.
  unfold submitExpense, submitExpense_at, fetch. preserve untouched.
Qed.

Lemma employee_handleSubmit now net :
  preserves default_employee (handleSubmit now net).
Proof.
  unfold handleSubmit.
  preserve ltac:(first [untouched | apply employee_submitExpense
                       | apply employee_resetForm]).
Qed.

Lemma employee_handleNlpParse reply :
  preserves default_employee (handleNlpParse reply).
Proof.
  unfold handleNlpParse.
  preserve ltac:(first [untouched | apply employee_handleAiParseSuccess]).
Qed.

Lemma employee_handleOcrParse dataUrl mimeType reply :
  preserves default_employee (handleOcrParse dataUrl mimeType reply).
Proof.
  unfold handleOcrParse. destruct dataUrl;
    preserve ltac:(first [untouched | apply employee_handleAiParseSuccess]).
Qed.

Lemma employee_assign r name value :
  name ∈ control_names →
  employeeName (assign r name value) = employeeName r ∧
  employeeId (assign r name value) = employeeId r.
Proof.
  unfold control_names. rewrite !elem_of_cons, elem_of_nil.
  intros [->|[->|[->|[->|[->|[->|[->|[]]]]]]]]; by split.
Qed.

End Employee.

Section EmployeeInvariant.
Context `{!Runtime}.

(** X10. The employee of the session stays: if the record names the
    default employee, it still does after any extraction from text or
    from a receipt, whatever the service answers, after a merge of any
    suggestion, after the highlight timer, an upload, the end of a file
    read, the removal of the receipt, a reset, a submission with any
    outcome, the closing of the dialog, and after an edit through any of
    the seven controls of the form. *)
Theorem employee_never_changes (w : World) :
  default_employee w →
  (∀ reply, default_employee (exec (handleNlpParse reply) w)) ∧
  (∀ dataUrl mimeType reply,
     default_employee (exec (handleOcrParse dataUrl mimeType reply) w)) ∧
  (∀ file result reply, default_employee (exec (onloadend file result reply) w)) ∧
  (∀ s, default_employee (exec (handleAiParseSuccess s) w)) ∧
  (∀ callback, default_employee (exec (run_timer callback) w)) ∧
  (∀ file, default_employee (exec (handleFileChange file) w)) ∧
  default_employee (exec removeReceipt w) ∧
  default_employee (exec resetForm w) ∧
  (∀ now net, default_employee (exec (handleSubmit now net) w)) ∧
  default_employee (exec closeModal w) ∧
  (∀ name value, name ∈ control_names →
                 default_employee (exec (handleDataChange name value) w)).
Proof.
  intros Hw. split_and!; intros.
  - by apply employee_handleNlpParse.
  - by apply employee_handleOcrParse.
  - revert w Hw. change (preserves default_employee (onloadend file result reply)).
    unfold onloadend.
    preserve ltac:(first [untouched | apply employee_handleOcrParse]).
  - by apply employee_handleAiParseSuccess.
  - revert w Hw. change (preserves default_employee (run_timer callback)).
    destruct callback. unfold run_timer. preserve untouched.
  - revert w Hw. change (preserves default_employee (handleFileChange file)).
    destruct file; unfold handleFileChange; preserve untouched.
  - exact Hw.
  - by apply employee_resetForm.
  - by apply employee_handleSubmit.
  - exact Hw.
  - revert w Hw.
    change (preserves default_employee (handleDataChange name value)).
    apply employee_setExpenseData. intros r. by apply employee_assign.
Qed.

End EmployeeInvariant.

(** X10 at an extraction from the description [Lunch 12 rupees]. *)
Lemma extraction_keeps_employee :
  default_employee
    (exec (@handleNlpParse unknown_category_runtime
             (Js.Fulfilled unknown_category_response))
          (form_describing sparse_record "Lunch 12 rupees")).
Proof.
  refine (proj1 (@employee_never_changes unknown_category_runtime
                   (form_describing sparse_record "Lunch 12 rupees") _)
            (Js.Fulfilled unknown_category_response)).
  split; reflexivity.
Defined.

Section OnlySubmitSends.
Context `{!Runtime}.




End OnlySubmitSends.

Section CategoryInvariant.
Context `{!Runtime}.

Lemma category_handleAiParseSuccess s :
  (∀ c, p_expenseCategory s = Some c → c ∈ EXPENSE_CATEGORIES) →
  preserves category_in_domain (handleAiParseSuccess s).
Proof.
  intros Hs w Hw. unfold exec. fold (exec (handleAiParseSuccess s) w).
  rewrite handleAiParseSuccess_exec.
  destruct (Nat.eqb (length (Object_keys s)) 0); [done|].
  unfold category_in_domain in *. cbn.
  destruct (p_expenseCategory s) as [c|]; [|done].
  apply elem_of_cons. right. by apply Hs.
Qed.

Lemma category_of_text description reply s :
  parseTextFromNaturalLanguage description reply = Js.Ok s →
  ∀ c, p_expenseCategory s = Some c → c ∈ EXPENSE_CATEGORIES.
Proof.
  unfold parseTextFromNaturalLanguage. destruct reply as [response|e]; [|done].
  cbn [await mbind Result_bind].
  destruct (parseJsonResponse response) as [s0|e] eqn:Hparse; [|done].
  intros [= <-]. by apply (parseJsonResponse_domain response s0).
Qed.

Lemma category_of_image base64Image mimeType reply s :
  parseReceiptFromImage base64Image mimeType reply = Js.Ok s →
  ∀ c, p_expenseCategory s = Some c → c ∈ EXPENSE_CATEGORIES.
Proof.
  unfold parseReceiptFromImage. destruct reply as [response|e]; [|done].
  cbn [await mbind Result_bind].
  destruct (parseJsonResponse response) as [s0|e] eqn:Hparse; [|done].
  intros [= <-]. by apply (parseJsonResponse_domain response s0).
Qed.

Lemma category_handleOcrParse dataUrl mimeType reply :
  preserves category_in_domain (handleOcrParse dataUrl mimeType reply).
Proof.
  unfold handleOcrParse.
  apply preserves_bind; [destruct dataUrl; preserve untouched|intros base64String].
  apply preserves_if; [preserve untouched|].
  do 2 (apply preserves_bind; [untouched|intros _]).
  apply preserves_finally; [|untouched].
  apply preserves_catch; [|intros e; untouched].
  apply preserves_bind_lift. intros s Hs.
  apply preserves_bind; [|intros _; preserve untouched].
  apply category_handleAiParseSuccess. by apply (category_of_image _ _ _ _ Hs).
Qed.

(** X12. No extraction can put a category outside the enumeration into
    the form: if the category of the record is unset or one of the four,
    it still is after an extraction from text and after the end of a file
    read with the extraction from the receipt, whatever the service
    answers. *)
Theorem extraction_keeps_category_in_domain (w : World) :
  category_in_domain w →
  (∀ reply, category_in_domain (exec (handleNlpParse reply) w)) ∧
  (∀ file result reply, category_in_domain (exec (onloadend file result reply) w)).
Proof.
  intros Hw. split; intros; revert w Hw.
  - change (preserves category_in_domain (handleNlpParse reply)).
    unfold handleNlpParse.
    apply preserves_bind; [untouched|intros _].
    apply preserves_bind; [untouched|intros st]. cbn zeta.
    repeat (apply preserves_if; [untouched|]).
    apply preserves_bind; [untouched|intros _].
    apply preserves_finally; [|untouched].
    apply preserves_catch; [|intros e; untouched].
    apply preserves_bind_lift. intros s Hs.
    apply category_handleAiParseSuccess. by apply (category_of_text _ _ _ Hs).
  - change (preserves category_in_domain (onloadend file result reply)).
    unfold onloadend.
    apply preserves_bind; [untouched|intros _].
    apply preserves_unawaited, category_handleOcrParse.
Qed.

End CategoryInvariant.

(** X12 at an answer with the category ["Unknown"]. *)
Lemma unknown_category_stays_out :
  category_in_domain
    (exec (@handleNlpParse unknown_category_runtime
             (Js.Fulfilled unknown_category_response))
          (form_describing sparse_record "Lunch 12 rupees")).
Proof.
  refine (proj1 (@extraction_keeps_category_in_domain unknown_category_runtime
                   (form_describing sparse_record "Lunch 12 rupees") _)
            (Js.Fulfilled unknown_category_response)).
  unfold category_in_domain. left.
Defined.

(** ** Outcomes of an extraction *)

Section ExtractionOutcome.
Context `{!Runtime}.

Lemma text_failure_is_unavailable description reply e :
  parseTextFromNaturalLanguage description reply = Js.Throw e → e = nlp_unavailable.
Proof.
  unfold parseTextFromNaturalLanguage.
  destruct reply as [response|e0]; cbn [await mbind Result_bind try_catch].
  - destruct (parseJsonResponse response); cbn [try_catch]; [done|].
    by intros [= <-].
  - by intros [= <-].
Qed.

Lemma image_failure_is_unavailable base64Image mimeType reply e :
  parseReceiptFromImage base64Image mimeType reply = Js.Throw e → e = ocr_unavailable.
Proof.
  unfold parseReceiptFromImage.
  destruct reply as [response|e0]; cbn [await mbind Result_bind try_catch].
  - destruct (parseJsonResponse response); cbn [try_catch]; [done|].
    by intros [= <-].
  - by intros [= <-].
Qed.

(** X13. A failed extraction costs the user nothing: when the
    description passes the two input checks and the extraction from text
    fails, for whatever reason, the handler leaves the record (the same
    object), the attachment, the description, the highlights, the timers
    and the submission state as they were, shows the fixed "service may
    be unavailable" text and switches the spinner off. The same holds for
    the extraction from a receipt whose data URL has a payload. *)
Theorem failed_extraction_keeps_form (w : World) :
  (∀ reply e,
     Js.string_truthy (Str.trim (naturalLanguageQuery (state w))) = true →
     (String.length (naturalLanguageQuery (state w)) ≤ 500)%nat →
     parseTextFromNaturalLanguage (naturalLanguageQuery (state w)) reply = Js.Throw e →
     exec (handleNlpParse reply) w
       = shows_ai_error "Failed to process your request. The AI service may be unavailable." w) ∧
  (∀ url payload mimeType reply e,
     Str.split "," url !! 1%nat = Some payload →
     Js.string_truthy payload = true →
     parseReceiptFromImage payload mimeType reply = Js.Throw e →
     exec (handleOcrParse (Some url) mimeType reply) w
       = shows_ai_error "Failed to read the receipt. The AI service may be unavailable." w).
Proof.
  split.
  - intros reply e Hquery Hlength Hfail.
    pose proof (text_failure_is_unavailable _ _ _ Hfail) as ->.
    apply Nat.ltb_ge in Hlength.
    unfold exec, handleNlpParse, mbind, M_bind, finally, catch, lift.
    cbn -[Js.string_truthy Str.trim Nat.ltb String.length parseTextFromNaturalLanguage].
    rewrite Hquery.
    cbn -[Js.string_truthy Str.trim Nat.ltb String.length parseTextFromNaturalLanguage].
    rewrite Hlength.
    cbn -[Js.string_truthy Str.trim Nat.ltb String.length parseTextFromNaturalLanguage].
    rewrite Hfail. reflexivity.
  - intros url payload mimeType reply e Hsplit Hpayload Hfail.
    pose proof (image_failure_is_unavailable _ _ _ _ Hfail) as ->.
    unfold exec, handleOcrParse, mbind, M_bind, finally, catch, lift.
    cbn -[Js.string_truthy Str.split parseReceiptFromImage].
    rewrite Hsplit.
    cbn -[Js.string_truthy Str.split parseReceiptFromImage].
    rewrite Hpayload.
    cbn -[Js.string_truthy Str.split parseReceiptFromImage].
    rewrite Hfail. reflexivity.
Qed.

End ExtractionOutcome.

(** X13 at a rejected call for the description [Lunch 12 rupees]. *)
Lemma rejected_text_extraction_keeps_form :
  exec (@handleNlpParse (table_runtime []) (Js.Rejected (Js.mkError "503")))
       (form_describing sparse_record "Lunch 12 rupees")
    = shows_ai_error
        "Failed to process your request. The AI service may be unavailable."
        (form_describing sparse_record "Lunch 12 rupees").
Proof.
  refine (proj1 (@failed_extraction_keeps_form (table_runtime [])
                   (form_describing sparse_record "Lunch 12 rupees"))
            (Js.Rejected (Js.mkError "503")) nlp_unavailable _ _ _).
  - reflexivity.
  - cbn. lia.
  - reflexivity.
Defined.

Section Spinner.
Context `{!Runtime}.

Lemma spinner_finally {A} (body : M A) (w : World) :
  spinner_off (snd (finally body (setIsAiLoading false) w)).
Proof. unfold finally. by destruct (body w). Qed.

Lemma spinner_handleAiParseSuccess s : preserves spinner_off (handleAiParseSuccess s).
Proof. unfold handleAiParseSuccess, setExpenseData. preserve untouched. Qed.

Lemma spinner_handleNlpParse reply : preserves spinner_off (handleNlpParse reply).
Proof.
  unfold handleNlpParse.
  apply preserves_bind; [untouched|intros _].
  apply preserves_bind; [untouched|intros st]. cbn zeta.
  repeat (apply preserves_if; [untouched|]).
  intros w _. unfold mbind, M_bind, setIsAiLoading at 1, modify.
  apply spinner_finally.
Qed.

Lemma spinner_handleOcrParse dataUrl mimeType reply :
  preserves spinner_off (handleOcrParse dataUrl mimeType reply).
Proof.
  unfold handleOcrParse. intros w Hw.
  destruct dataUrl as [url|]; [|exact Hw].
  unfold mbind at 1, M_bind at 1, mret, M_ret.
  destruct (negb (field_truthy (Str.split "," url !! 1%nat))); [exact Hw|].
  unfold mbind, M_bind, setIsAiLoading at 1, setAiError at 1, modify.
  apply spinner_finally.
Qed.

(** X14. The spinner is released: when no extraction is shown as
    running, none is after any handler has run to its end, whatever the
    service or the network answered and even when the file read gave
    nothing. An extraction that passed its input checks switches the
    spinner off whatever it was before. *)
Theorem spinner_is_released (w : World) :
  (spinner_off w →
   (∀ reply, spinner_off (exec (handleNlpParse reply) w)) ∧
   (∀ dataUrl mimeType reply,
      spinner_off (exec (handleOcrParse dataUrl mimeType reply) w)) ∧
   (∀ file result reply, spinner_off (exec (onloadend file result reply) w)) ∧
   (∀ s, spinner_off (exec (handleAiParseSuccess s) w)) ∧
   (∀ callback, spinner_off (exec (run_timer callback) w)) ∧
   (∀ file, spinner_off (exec (handleFileChange file) w)) ∧
   spinner_off (exec removeReceipt w) ∧
   spinner_off (exec resetForm w) ∧
   (∀ now net, spinner_off (exec (handleSubmit now net) w)) ∧
   spinner_off (exec closeModal w) ∧
   (∀ name value, spinner_off (exec (handleDataChange name value) w))) ∧
  (∀ reply,
     Js.string_truthy (Str.trim (naturalLanguageQuery (state w))) = true →
     (String.length (naturalLanguageQuery (state w)) ≤ 500)%nat →
     spinner_off (exec (handleNlpParse reply) w)) ∧
  (∀ url payload mimeType reply,
     Str.split "," url !! 1%nat = Some payload →
     Js.string_truthy payload = true →
     spinner_off (exec (handleOcrParse (Some url) mimeType reply) w)).
Proof.
  split; [intros Hw; split_and!; intros|split].
  - by apply spinner_handleNlpParse.
  - by apply spinner_handleOcrParse.
  - revert w Hw. change (preserves spinner_off (onloadend file result reply)).
    unfold onloadend.
    apply preserves_bind; [untouched|intros _].
    apply preserves_unawaited, spinner_handleOcrParse.
  - by apply spinner_handleAiParseSuccess.
  - revert w Hw. change (preserves spinner_off (run_timer callback)).
    destruct callback. unfold run_timer. preserve untouched.
  - revert w Hw. change (preserves spinner_off (handleFileChange file)).
    destruct file; unfold handleFileChange; preserve untouched.
  - exact Hw.
  - exact Hw.
  - revert w Hw. change (preserves spinner_off (handleSubmit now net)).
    unfold handleSubmit, submitExpense, submitExpense_at, fetch, resetForm.
    preserve untouched.
  - exact Hw.
  - revert w Hw. change (preserves spinner_off (handleDataChange name value)).
    unfold handleDataChange, setExpenseData. preserve untouched.
  - intros reply Hquery Hlength. apply Nat.ltb_ge in Hlength.
    unfold exec, handleNlpParse, mbind, M_bind.
    cbn -[Js.string_truthy Str.trim Nat.ltb String.length finally].
    rewrite Hquery.
    cbn -[Js.string_truthy Str.trim Nat.ltb String.length finally].
    rewrite Hlength. apply spinner_finally.
  - intros url payload mimeType reply Hsplit Hpayload.
    unfold exec, handleOcrParse, mbind, M_bind.
    cbn -[Js.string_truthy Str.split finally].
    rewrite Hsplit.
    cbn -[Js.string_truthy Str.split finally].
    rewrite Hpayload. apply spinner_finally.
Qed.

End Spinner.

(** X14 at a spinner that was left on. *)
Lemma stuck_spinner_is_released :
  spinner_off
    (exec (@handleNlpParse (table_runtime []) (Js.Rejected (Js.mkError "503")))
          (exec (setIsAiLoading true)
                (form_describing sparse_record "Lunch 12 rupees"))).
Proof.
  refine (proj1 (proj2 (@spinner_is_released (table_runtime [])
            (exec (setIsAiLoading true)
                  (form_describing sparse_record "Lunch 12 rupees"))))
            (Js.Rejected (Js.mkError "503")) _ _).
  - reflexivity.
  - cbn. lia.
Defined.

Section Payload.
Context `{!Runtime}.

Lemma split_without_sep sep s : Str.mem sep s = false → Str.split sep s = [s].
Proof.
  induction s as [|c s IH]; simpl; [done|].
  intros [Hc Hs]%orb_false_iff. rewrite Hc, (IH Hs). done.
Qed.

(** X15. A file read that gave no payload starts no extraction: for a
    data URL without a comma, or with nothing after its first comma,
    [handleOcrParse] returns at once and leaves the world as it is,
    spinner and error text included; for a failed read ([null]) it
    throws before it has changed anything, and since nobody awaits it,
    the end of the read changes the preview and nothing else. *)
Theorem read_without_payload_is_ignored (w : World) (mimeType : string)
    (reply : Js.Settled GenerateContentResponse) :
  (∀ url, Str.mem "," url = false →
          handleOcrParse (Some url) mimeType reply w = (Js.Ok tt, w)) ∧
  (∀ url, Str.split "," url !! 1%nat = Some "" →
          handleOcrParse (Some url) mimeType reply w = (Js.Ok tt, w)) ∧
  (∃ e, handleOcrParse None mimeType reply w = (Js.Throw e, w)) ∧
  (∀ file, exec (onloadend file None reply) w = exec (setReceiptPreview None) w).
Proof.
  split_and!.
  - intros url Hurl. unfold handleOcrParse, mbind, M_bind, mret, M_ret.
    by rewrite (split_without_sep _ _ Hurl).
  - intros url Hurl. unfold handleOcrParse, mbind, M_bind, mret, M_ret.
    by rewrite Hurl.
  - by eexists.
  - done.
Qed.

End Payload.

(** X15 at the data URL [data:image/png;base64]. *)
Lemma url_without_comma_is_ignored :
  @handleOcrParse (table_runtime []) (Some no_payload_url) "image/png"
                  (Js.Rejected (Js.mkError "503"))
                  (form_with_receipt (taxi_record 600) receipt_png no_payload_url)
    = (Js.Ok tt, form_with_receipt (taxi_record 600) receipt_png no_payload_url).
Proof.
  refine (proj1 (@read_without_payload_is_ignored (table_runtime []) _ _ _) _ _).
  reflexivity.
Defined.

Section Description.
Context `{!Runtime}.

Lemma describe_undescribed s : undescribed s = true → describe s = ".".
Proof.
  unfold undescribed, describe.
  intros ((((Ha & Ht)%andb_true_iff & Hd)%andb_true_iff
            & Hp)%andb_true_iff & Hc)%andb_true_iff.
  apply negb_true_iff in Ha, Ht, Hd, Hp, Hc.
  by rewrite Ha, Ht, Hd, Hp, Hc.
Qed.

(** X16. After a successful extraction from a receipt the error text is
    cleared, the spinner is off, the record is the one that the merge of
    the suggestion gives, and the description box is rewritten: with the
    fixed review sentence for the empty suggestion (the record then being
    untouched), with the sentence built from the suggestion otherwise.
    That sentence is a lone full stop when the suggestion has keys but
    none of amount, title, date, project and category is truthy in it: a
    suggested amount of zero, a currency or a comment are merged into the
    record and leave [.] in the box. *)
Theorem receipt_extraction_fills_description (w : World)
    (url payload mimeType : string) (reply : Js.Settled GenerateContentResponse)
    (s : PartialExpenseData) :
  Str.split "," url !! 1%nat = Some payload →
  Js.string_truthy payload = true →
  parseReceiptFromImage payload mimeType reply = Js.Ok s →
  let w' := exec (handleOcrParse (Some url) mimeType reply) w in
  aiError (state w') = None ∧
  isAiLoading (state w') = false ∧
  expenseData (state w') = expenseData (state (exec (handleAiParseSuccess s) w)) ∧
  (s = empty_partial →
     naturalLanguageQuery (state w') = review_sentence ∧
     expenseData (state w') = expenseData (state w)) ∧
  (s ≠ empty_partial → naturalLanguageQuery (state w') = describe s) ∧
  (s ≠ empty_partial → undescribed s = true →
     naturalLanguageQuery (state w') = ".").
Proof.
  intros Hsplit Hpayload Hparse w'.
  assert (w' = exec (setIsAiLoading false)
                 (exec (setNaturalLanguageQuery
                          (if Nat.ltb 0 (length (Object_keys s))
                           then describe s else review_sentence))
                    (exec (handleAiParseSuccess s)
                       (exec (setAiError None) (exec (setIsAiLoading true) w)))))
    as Hw'.
  { subst w'. unfold exec at 1, handleOcrParse, mbind, M_bind, finally, catch, lift.
    cbn -[Js.string_truthy Str.split parseReceiptFromImage handleAiParseSuccess
          describe Object_keys].
    rewrite Hsplit.
    cbn -[Js.string_truthy Str.split parseReceiptFromImage handleAiParseSuccess
          describe Object_keys].
    rewrite Hpayload.
    cbn -[Js.string_truthy Str.split parseReceiptFromImage handleAiParseSuccess
          describe Object_keys].
    rewrite Hparse.
    unfold exec.
    destruct (handleAiParseSuccess s _) as [[[]|e] w1] eqn:Hmerge.
    - by destruct (length (Object_keys s)).
    - exfalso. revert Hmerge. unfold handleAiParseSuccess, setExpenseData.
      destruct (Nat.eqb (length (Object_keys s)) 0); discriminate. }
  clearbody w'. subst w'.
  rewrite !handleAiParseSuccess_exec.
  destruct (Object_keys s) as [|k ks] eqn:Hkeys.
  - apply Object_keys_nil in Hkeys as ->. cbn. split_and!; done.
  - assert (s ≠ empty_partial) as Hs by (by intros ->).
    cbn -[describe]. split_and!; try done.
    intros _ Hu. by apply describe_undescribed.
Qed.

End Description.

(** X16 at a receipt read as amount zero in rupees. *)
Lemma zero_amount_receipt_writes_full_stop :
  naturalLanguageQuery
    (state (exec (@handleOcrParse zero_amount_runtime (Some png_url) "image/png"
                    (Js.Fulfilled (mkResponse (Some zero_amount_text))))
                 (form_with_receipt sparse_record receipt_png png_url)))
    = ".".
Proof.
  refine (proj2 (proj2 (proj2 (proj2 (proj2
    (@receipt_extraction_fills_description zero_amount_runtime
       (form_with_receipt sparse_record receipt_png png_url)
       png_url "iVBORw0KGgo=" "image/png"
       (Js.Fulfilled (mkResponse (Some zero_amount_text))) zero_amount
       _ _ _))))) _ _).
  - reflexivity.
  - reflexivity.
  - vm_compute. reflexivity.
  - discriminate.
  - reflexivity.
Defined.
